(** * Aquacomputer Octo hwmon driver: report decoding, staleness and queries

    A shallow embedding of [aquacomputer-octo.c].  The driver keeps one
    [struct octo_data] per device.  [octo_raw_event] overwrites it from a
    HID status report, [octo_read] and [octo_read_string] answer hwmon
    queries, the debugfs [*_show] functions print the identity fields and
    [octo_probe] creates the structure.

    C integers are modelled as [Z] with every conversion written out,
    report buffers as [list Byte.byte], the fixed-size arrays of the
    structure as lists accessed with stdpp's lookup and insert. *)

From Stdlib Require Import ZArith Lia Ascii Strings.Byte DecimalString.
From Stdlib Require Import DecimalPos DecimalN.
From stdpp Require Import base tactics option list strings.

Open Scope Z_scope.

(** ** C integer types *)

Module CInt.

(** Value of [z] after conversion to an unsigned [w]-bit type. *)
Definition wrap (w z : Z) : Z := z mod 2 ^ w.

(** Value of [z] after conversion to a signed [w]-bit type
    (two's complement, as the kernel is compiled). *)
Definition swrap (w z : Z) : Z :=
  let u := z mod 2 ^ w in
  if u <? 2 ^ (w - 1) then u else u - 2 ^ w.

Definition to_u8 : Z -> Z := wrap 8.
Definition to_u16 : Z -> Z := wrap 16.
Definition to_u32 : Z -> Z := wrap 32.
Definition to_s32 : Z -> Z := swrap 32.

(** [int] arithmetic: operands already promoted to [int]. *)
Definition int_mul (a b : Z) : Z := to_s32 (a * b).
Definition int_div (a b : Z) : Z := to_s32 (Z.quot a b).

End CInt.
Import CInt.

(** ** Kernel configuration and helpers the driver is compiled against

    [BITS_PER_LONG] and [HZ] are fixed by the kernel build; the driver
    source does not determine them. *)

Record kconfig : Type := Kconfig { BITS_PER_LONG : Z; HZ : Z }.

(** Builds the driver can meet: [long] has at least 32 bits and the tick
    rate is a positive [int] such that [2 * HZ] does not overflow. *)
Definition kconfig_ok (cfg : kconfig) : Prop :=
  32 <= BITS_PER_LONG cfg /\ 0 < HZ cfg /\ 2 * HZ cfg < 2 ^ 31.

Definition to_ulong (cfg : kconfig) : Z -> Z := wrap (BITS_PER_LONG cfg).
Definition to_long (cfg : kconfig) : Z -> Z := swrap (BITS_PER_LONG cfg).

(** [time_after(a, b)] of linux/jiffies.h: [(long)((b) - (a)) < 0] on
    [unsigned long] operands. *)
Definition time_after (cfg : kconfig) (a b : Z) : bool :=
  to_long cfg (to_ulong cfg (b - a)) <? 0.

(** errno values (asm-generic). *)
Definition ENOMEM : Z := 12.
Definition ENODATA : Z := 61.
Definition EOPNOTSUPP : Z := 95.

(** [enum hwmon_sensor_types] of linux/hwmon.h. *)
Inductive hwmon_sensor_types : Type :=
  | hwmon_chip | hwmon_temp | hwmon_in | hwmon_curr | hwmon_power
  | hwmon_energy | hwmon_humidity | hwmon_fan | hwmon_pwm | hwmon_intrusion.

(** Unsigned value of a byte of the report buffer. *)
Definition u8 (b : byte) : Z := Z.of_N (Byte.to_N b).

(** Outcome of reading through a pointer: [None] when the access leaves
    the memory that can be read at [data], where C gives the program no
    defined behaviour. *)
Definition get_unaligned_be16 (data : list byte) (off : Z) : option Z :=
  if off <? 0 then None else
  match data !! Z.to_nat off, data !! Z.to_nat (off + 1) with
  | Some b0, Some b1 => Some (Z.lor (Z.shiftl (u8 b0) 8) (u8 b1))
  | _, _ => None
  end.

Definition get_unaligned_be32 (data : list byte) (off : Z) : option Z :=
  if off <? 0 then None else
  match data !! Z.to_nat off, data !! Z.to_nat (off + 1),
        data !! Z.to_nat (off + 2), data !! Z.to_nat (off + 3) with
  | Some b0, Some b1, Some b2, Some b3 =>
      Some (Z.lor (Z.lor (Z.lor (Z.shiftl (u8 b0) 24) (Z.shiftl (u8 b1) 16))
                         (Z.shiftl (u8 b2) 8)) (u8 b3))
  | _, _, _, _ => None
  end.

(** [printf] conversions used by the debugfs files. *)
Definition fmt_u (n : Z) : string := NilZero.string_of_uint (N.to_uint (Z.to_N n)).

Fixpoint zero_pad (k : nat) (s : string) : string :=
  match k with
  | O => s
  | S k' => String "0"%char (zero_pad k' s)
  end.

Definition fmt_05u (n : Z) : string :=
  let s := fmt_u n in zero_pad (5 - String.length s) s.

(** ** Constants of the driver *)

Definition OCTO_STATUS_REPORT_ID : Z := 0x01.
Definition OCTO_STATUS_UPDATE_INTERVAL (cfg : kconfig) : Z := int_mul 2 (HZ cfg).

Definition OCTO_SERIAL_FIRST_PART : Z := 3.
Definition OCTO_SERIAL_SECOND_PART : Z := 5.
Definition OCTO_FIRMWARE_VERSION : Z := 13.
Definition OCTO_POWER_CYCLES : Z := 24.

Definition OCTO_TEMP1 : Z := 61.
Definition OCTO_TEMP2 : Z := 63.
Definition OCTO_TEMP3 : Z := 65.
Definition OCTO_TEMP4 : Z := 67.

Definition OCTO_FLOW_SPEED : Z := 123.
Definition OCTO_FAN1_SPEED : Z := 133.
Definition OCTO_FAN2_SPEED : Z := 146.
Definition OCTO_FAN3_SPEED : Z := 159.
Definition OCTO_FAN4_SPEED : Z := 172.
Definition OCTO_FAN5_SPEED : Z := 185.
Definition OCTO_FAN6_SPEED : Z := 198.
Definition OCTO_FAN7_SPEED : Z := 211.
Definition OCTO_FAN8_SPEED : Z := 224.

Definition OCTO_FAN1_POWER : Z := 131.
Definition OCTO_FAN2_POWER : Z := 144.
Definition OCTO_FAN3_POWER : Z := 157.
Definition OCTO_FAN4_POWER : Z := 170.
Definition OCTO_FAN5_POWER : Z := 183.
Definition OCTO_FAN6_POWER : Z := 196.
Definition OCTO_FAN7_POWER : Z := 209.
Definition OCTO_FAN8_POWER : Z := 222.

Definition OCTO_VOLTAGE : Z := 117.
Definition OCTO_FAN1_VOLTAGE : Z := 127.
Definition OCTO_FAN2_VOLTAGE : Z := 140.
Definition OCTO_FAN3_VOLTAGE : Z := 153.
Definition OCTO_FAN4_VOLTAGE : Z := 166.
Definition OCTO_FAN5_VOLTAGE : Z := 179.
Definition OCTO_FAN6_VOLTAGE : Z := 192.
Definition OCTO_FAN7_VOLTAGE : Z := 205.
Definition OCTO_FAN8_VOLTAGE : Z := 218.

Definition OCTO_FAN1_CURRENT : Z := 129.
Definition OCTO_FAN2_CURRENT : Z := 142.
Definition OCTO_FAN3_CURRENT : Z := 155.
Definition OCTO_FAN4_CURRENT : Z := 168.
Definition OCTO_FAN5_CURRENT : Z := 181.
Definition OCTO_FAN6_CURRENT : Z := 194.
Definition OCTO_FAN7_CURRENT : Z := 207.
Definition OCTO_FAN8_CURRENT : Z := 220.

(** ** Labels *)

Definition L_TEMP1 : string := "Temp1".
Definition L_TEMP2 : string := "Temp2".
Definition L_TEMP3 : string := "Temp3".
Definition L_TEMP4 : string := "Temp4".

Definition L_FLOW_SPEED : string := "Flow speed [l/h]".
Definition L_FAN1_SPEED : string := "Fan1 speed".
Definition L_FAN2_SPEED : string := "Fan2 speed".
Definition L_FAN3_SPEED : string := "Fan3 speed".
Definition L_FAN4_SPEED : string := "Fan4 speed".
Definition L_FAN5_SPEED : string := "Fan5 speed".
Definition L_FAN6_SPEED : string := "Fan6 speed".
Definition L_FAN7_SPEED : string := "Fan7 speed".
Definition L_FAN8_SPEED : string := "Fan8 speed".

Definition L_FAN1_POWER : string := "Fan1 power".
Definition L_FAN2_POWER : string := "Fan2 power".
Definition L_FAN3_POWER : string := "Fan3 power".
Definition L_FAN4_POWER : string := "Fan4 power".
Definition L_FAN5_POWER : string := "Fan5 power".
Definition L_FAN6_POWER : string := "Fan6 power".
Definition L_FAN7_POWER : string := "Fan7 power".
Definition L_FAN8_POWER : string := "Fan8 power".

Definition L_OCTO_VOLTAGE : string := "VCC".
Definition L_FAN1_VOLTAGE : string := "Fan1 voltage".
Definition L_FAN2_VOLTAGE : string := "Fan2 voltage".
Definition L_FAN3_VOLTAGE : string := "Fan3 voltage".
Definition L_FAN4_VOLTAGE : string := "Fan4 voltage".
Definition L_FAN5_VOLTAGE : string := "Fan5 voltage".
Definition L_FAN6_VOLTAGE : string := "Fan6 voltage".
Definition L_FAN7_VOLTAGE : string := "Fan7 voltage".
Definition L_FAN8_VOLTAGE : string := "Fan8 voltage".

Definition L_FAN1_CURRENT : string := "Fan1 current".
Definition L_FAN2_CURRENT : string := "Fan2 current".
Definition L_FAN3_CURRENT : string := "Fan3 current".
Definition L_FAN4_CURRENT : string := "Fan4 current".
Definition L_FAN5_CURRENT : string := "Fan1 current".
Definition L_FAN6_CURRENT : string := "Fan2 current".
Definition L_FAN7_CURRENT : string := "Fan3 current".
Definition L_FAN8_CURRENT : string := "Fan4 current".

Definition label_temps : list string :=
  [L_TEMP1; L_TEMP2; L_TEMP3; L_TEMP4].

Definition label_speeds : list string :=
  [L_FLOW_SPEED; L_FAN1_SPEED; L_FAN2_SPEED; L_FAN3_SPEED; L_FAN4_SPEED;
   L_FAN5_SPEED; L_FAN6_SPEED; L_FAN7_SPEED; L_FAN8_SPEED].

Definition label_power : list string :=
  [L_FAN1_POWER; L_FAN2_POWER; L_FAN3_POWER; L_FAN4_POWER;
   L_FAN5_POWER; L_FAN6_POWER; L_FAN7_POWER; L_FAN8_POWER].

Definition label_voltages : list string :=
  [L_OCTO_VOLTAGE; L_FAN1_VOLTAGE; L_FAN2_VOLTAGE; L_FAN3_VOLTAGE; L_FAN4_VOLTAGE;
   L_FAN5_VOLTAGE; L_FAN6_VOLTAGE; L_FAN7_VOLTAGE; L_FAN8_VOLTAGE].

Definition label_current : list string :=
  [L_FAN1_CURRENT; L_FAN2_CURRENT; L_FAN3_CURRENT; L_FAN4_CURRENT;
   L_FAN5_CURRENT; L_FAN6_CURRENT; L_FAN7_CURRENT; L_FAN8_CURRENT].

(** ** Driver state *)

(** [struct octo_data] without its three kernel handles ([hdev],
    [hwmon_dev], [debugfs]), which no modelled function inspects. *)
Record octo_data : Type := OctoData {
  temp_input : list Z;        (* s32 [4] *)
  speed_input : list Z;       (* u16 [9] *)
  power_input : list Z;       (* u32 [8] *)
  voltage_input : list Z;     (* u16 [9] *)
  current_input : list Z;     (* u16 [8] *)
  serial_number : list Z;     (* u32 [2] *)
  firmware_version : Z;       (* u16 *)
  power_cycles : Z;           (* u32 *)
  updated : Z                 (* unsigned long *)
}.

(** Outcome of a query callback: [Ok v] is return value 0 with [v] stored
    through the output pointer, [Err e] is return value [e] (a negated
    errno), [Undef] an execution to which C assigns no behaviour. *)
Inductive result (A : Type) : Type :=
  | Ok (a : A)
  | Err (e : Z)
  | Undef.
Arguments Ok {A} a.
Arguments Err {A} e.
Arguments Undef {A}.

(** [arr[i]] for an [int] index into a fixed-size array. *)
Definition array_get {A : Type} (arr : list A) (i : Z) : result A :=
  if i <? 0 then Undef else
  match arr !! Z.to_nat i with
  | Some v => Ok v
  | None => Undef
  end.

(** ** Query callbacks *)

Definition octo_is_visible (type : hwmon_sensor_types) (attr : Z) (channel : Z) : Z :=
  292. (* 0444 *)

(** Assignment through [long *val]. *)
Definition store_val (cfg : kconfig) (r : result Z) : result Z :=
  match r with
  | Ok v => Ok (to_long cfg v)
  | Err e => Err e
  | Undef => Undef
  end.

(** [jiffies] is the value of the kernel's tick counter when the callback
    runs; it is an [unsigned long], so the argument is reduced to that
    range. *)
Definition octo_read (cfg : kconfig) (priv : octo_data) (jiffies : Z)
    (type : hwmon_sensor_types) (attr : Z) (channel : Z) : result Z :=
  if time_after cfg (to_ulong cfg jiffies)
       (to_ulong cfg (updated priv + OCTO_STATUS_UPDATE_INTERVAL cfg))
  then Err (- ENODATA)
  else
    match type with
    | hwmon_temp => store_val cfg (array_get (temp_input priv) channel)
    | hwmon_fan => store_val cfg (array_get (speed_input priv) channel)
    | hwmon_power => store_val cfg (array_get (power_input priv) channel)
    | hwmon_in => store_val cfg (array_get (voltage_input priv) channel)
    | hwmon_curr => store_val cfg (array_get (current_input priv) channel)
    | _ => Err (- EOPNOTSUPP)
    end.

Definition octo_read_string (priv : octo_data) (type : hwmon_sensor_types)
    (attr : Z) (channel : Z) : result string :=
  match type with
  | hwmon_temp => array_get label_temps channel
  | hwmon_fan => array_get label_speeds channel
  | hwmon_power => array_get label_power channel
  | hwmon_in => array_get label_voltages channel
  | hwmon_curr => array_get label_current channel
  | _ => Err (- EOPNOTSUPP)
  end.

(** ** Capability table

    [octo_info]: one entry per sensor type, one configuration word per
    channel; every word of the source is [INPUT | LABEL] of its type. *)

Record channel_config : Type := ChannelConfig { has_input : bool; has_label : bool }.

Definition INPUT_LABEL : channel_config := ChannelConfig true true.

Definition octo_info : list (hwmon_sensor_types * list channel_config) :=
  [ (hwmon_temp, [INPUT_LABEL; INPUT_LABEL; INPUT_LABEL; INPUT_LABEL]);
    (hwmon_fan, [INPUT_LABEL; INPUT_LABEL; INPUT_LABEL; INPUT_LABEL; INPUT_LABEL;
                 INPUT_LABEL; INPUT_LABEL; INPUT_LABEL; INPUT_LABEL]);
    (hwmon_power, [INPUT_LABEL; INPUT_LABEL; INPUT_LABEL; INPUT_LABEL;
                   INPUT_LABEL; INPUT_LABEL; INPUT_LABEL; INPUT_LABEL]);
    (hwmon_in, [INPUT_LABEL; INPUT_LABEL; INPUT_LABEL; INPUT_LABEL; INPUT_LABEL;
                INPUT_LABEL; INPUT_LABEL; INPUT_LABEL; INPUT_LABEL]);
    (hwmon_curr, [INPUT_LABEL; INPUT_LABEL; INPUT_LABEL; INPUT_LABEL;
                  INPUT_LABEL; INPUT_LABEL; INPUT_LABEL; INPUT_LABEL]) ].

(** ** Report handler

    The handler mutates [*priv] field by field.  [exec] threads the
    structure through the assignments; a step is [None] when it touches
    memory outside the buffer or outside an array. *)

Definition exec (A : Type) : Type := octo_data -> option (A * octo_data).

#[global] Instance exec_ret : MRet exec := λ A a s, Some (a, s).
#[global] Instance exec_bind : MBind exec := λ A B k m s,
  match m s with
  | Some (a, s') => k a s'
  | None => None
  end.

Definition be16 (data : list byte) (off : Z) : exec Z := λ s,
  match get_unaligned_be16 data off with
  | Some v => Some (v, s)
  | None => None
  end.

Definition be32 (data : list byte) (off : Z) : exec Z := λ s,
  match get_unaligned_be32 data off with
  | Some v => Some (v, s)
  | None => None
  end.

Definition set_serial_number (i : nat) (v : Z) : exec () := λ s,
  if decide (i < length (serial_number s))%nat then
    Some ((), OctoData (temp_input s) (speed_input s) (power_input s)
                (voltage_input s) (current_input s)
                (<[i := to_u32 v]> (serial_number s))
                (firmware_version s) (power_cycles s) (updated s))
  else None.

Definition set_firmware_version (v : Z) : exec () := λ s,
  Some ((), OctoData (temp_input s) (speed_input s) (power_input s)
              (voltage_input s) (current_input s) (serial_number s)
              (to_u16 v) (power_cycles s) (updated s)).

Definition set_power_cycles (v : Z) : exec () := λ s,
  Some ((), OctoData (temp_input s) (speed_input s) (power_input s)
              (voltage_input s) (current_input s) (serial_number s)
              (firmware_version s) (to_u32 v) (updated s)).

Definition set_temp_input (i : nat) (v : Z) : exec () := λ s,
  if decide (i < length (temp_input s))%nat then
    Some ((), OctoData (<[i := to_s32 v]> (temp_input s)) (speed_input s)
                (power_input s) (voltage_input s) (current_input s)
                (serial_number s) (firmware_version s) (power_cycles s)
                (updated s))
  else None.

Definition set_speed_input (i : nat) (v : Z) : exec () := λ s,
  if decide (i < length (speed_input s))%nat then
    Some ((), OctoData (temp_input s) (<[i := to_u16 v]> (speed_input s))
                (power_input s) (voltage_input s) (current_input s)
                (serial_number s) (firmware_version s) (power_cycles s)
                (updated s))
  else None.

Definition set_power_input (i : nat) (v : Z) : exec () := λ s,
  if decide (i < length (power_input s))%nat then
    Some ((), OctoData (temp_input s) (speed_input s)
                (<[i := to_u32 v]> (power_input s)) (voltage_input s)
                (current_input s) (serial_number s) (firmware_version s)
                (power_cycles s) (updated s))
  else None.

Definition set_voltage_input (i : nat) (v : Z) : exec () := λ s,
  if decide (i < length (voltage_input s))%nat then
    Some ((), OctoData (temp_input s) (speed_input s) (power_input s)
                (<[i := to_u16 v]> (voltage_input s)) (current_input s)
                (serial_number s) (firmware_version s) (power_cycles s)
                (updated s))
  else None.

Definition set_current_input (i : nat) (v : Z) : exec () := λ s,
  if decide (i < length (current_input s))%nat then
    Some ((), OctoData (temp_input s) (speed_input s) (power_input s)
                (voltage_input s) (<[i := to_u16 v]> (current_input s))
                (serial_number s) (firmware_version s) (power_cycles s)
                (updated s))
  else None.

Definition with_updated (s : octo_data) (v : Z) : octo_data :=
  OctoData (temp_input s) (speed_input s) (power_input s) (voltage_input s)
           (current_input s) (serial_number s) (firmware_version s)
           (power_cycles s) v.

Definition set_updated (v : Z) : exec () := λ s, Some ((), with_updated s v).

(** The statements of [octo_raw_event] after the report-id test, in source
    order.  [size] does not occur: the handler never looks at it. *)
Definition octo_raw_event_body (cfg : kconfig) (data : list byte) (jiffies : Z)
    : exec Z :=
  (* Info provided with every report *)
  v ← be16 data OCTO_SERIAL_FIRST_PART; set_serial_number 0 v;;
  v ← be16 data OCTO_SERIAL_SECOND_PART; set_serial_number 1 v;;
  v ← be16 data OCTO_FIRMWARE_VERSION; set_firmware_version v;;
  v ← be32 data OCTO_POWER_CYCLES; set_power_cycles v;;
  (* Sensor readings *)
  v ← be16 data OCTO_TEMP1; set_temp_input 0 (int_mul v 10);;
  v ← be16 data OCTO_TEMP2; set_temp_input 1 (int_mul v 10);;
  v ← be16 data OCTO_TEMP3; set_temp_input 2 (int_mul v 10);;
  v ← be16 data OCTO_TEMP4; set_temp_input 3 (int_mul v 10);;
  v ← be16 data OCTO_FLOW_SPEED; set_speed_input 0 (int_div v 10);;
  v ← be16 data OCTO_FAN1_SPEED; set_speed_input 1 v;;
  v ← be16 data OCTO_FAN2_SPEED; set_speed_input 2 v;;
  v ← be16 data OCTO_FAN3_SPEED; set_speed_input 3 v;;
  v ← be16 data OCTO_FAN4_SPEED; set_speed_input 4 v;;
  v ← be16 data OCTO_FAN5_SPEED; set_speed_input 5 v;;
  v ← be16 data OCTO_FAN6_SPEED; set_speed_input 6 v;;
  v ← be16 data OCTO_FAN7_SPEED; set_speed_input 7 v;;
  v ← be16 data OCTO_FAN8_SPEED; set_speed_input 8 v;;
  v ← be16 data OCTO_FAN1_POWER; set_power_input 0 (int_mul v 10000);;
  v ← be16 data OCTO_FAN2_POWER; set_power_input 1 (int_mul v 10000);;
  v ← be16 data OCTO_FAN3_POWER; set_power_input 2 (int_mul v 10000);;
  v ← be16 data OCTO_FAN4_POWER; set_power_input 3 (int_mul v 10000);;
  v ← be16 data OCTO_FAN5_POWER; set_power_input 4 (int_mul v 10000);;
  v ← be16 data OCTO_FAN6_POWER; set_power_input 5 (int_mul v 10000);;
  v ← be16 data OCTO_FAN7_POWER; set_power_input 6 (int_mul v 10000);;
  v ← be16 data OCTO_FAN8_POWER; set_power_input 7 (int_mul v 10000);;
  v ← be16 data OCTO_VOLTAGE; set_voltage_input 0 (int_mul v 10);;
  v ← be16 data OCTO_FAN1_VOLTAGE; set_voltage_input 1 (int_mul v 10);;
  v ← be16 data OCTO_FAN2_VOLTAGE; set_voltage_input 2 (int_mul v 10);;
  v ← be16 data OCTO_FAN3_VOLTAGE; set_voltage_input 3 (int_mul v 10);;
  v ← be16 data OCTO_FAN4_VOLTAGE; set_voltage_input 4 (int_mul v 10);;
  v ← be16 data OCTO_FAN5_VOLTAGE; set_voltage_input 5 (int_mul v 10);;
  v ← be16 data OCTO_FAN6_VOLTAGE; set_voltage_input 6 (int_mul v 10);;
  v ← be16 data OCTO_FAN7_VOLTAGE; set_voltage_input 7 (int_mul v 10);;
  v ← be16 data OCTO_FAN8_VOLTAGE; set_voltage_input 8 (int_mul v 10);;
  v ← be16 data OCTO_FAN1_CURRENT; set_current_input 0 v;;
  v ← be16 data OCTO_FAN2_CURRENT; set_current_input 1 v;;
  v ← be16 data OCTO_FAN3_CURRENT; set_current_input 2 v;;
  v ← be16 data OCTO_FAN4_CURRENT; set_current_input 3 v;;
  v ← be16 data OCTO_FAN5_CURRENT; set_current_input 4 v;;
  v ← be16 data OCTO_FAN6_CURRENT; set_current_input 5 v;;
  v ← be16 data OCTO_FAN7_CURRENT; set_current_input 6 v;;
  v ← be16 data OCTO_FAN8_CURRENT; set_current_input 7 v;;
  set_updated (to_ulong cfg jiffies);;
  mret 0.

(** [data] is the memory readable at the pointer the transport passes,
    [size] the length of the report it announces.  The result is the
    return value and the structure afterwards. *)
Definition octo_raw_event (cfg : kconfig) (priv : octo_data) (report_id : Z)
    (data : list byte) (size : Z) (jiffies : Z) : option (Z * octo_data) :=
  if negb (report_id =? OCTO_STATUS_REPORT_ID) then Some (0, priv)
  else octo_raw_event_body cfg data jiffies priv.

(** ** debugfs files *)

Definition newline : string := String (ascii_of_nat 10) EmptyString.

Definition serial_number_show (priv : octo_data) : result string :=
  match array_get (serial_number priv) 0, array_get (serial_number priv) 1 with
  | Ok a, Ok b => Ok (fmt_05u a +:+ "-" +:+ fmt_05u b +:+ newline)
  | _, _ => Undef
  end.

Definition firmware_version_show (priv : octo_data) : result string :=
  Ok (fmt_u (firmware_version priv) +:+ newline).

Definition power_cycles_show (priv : octo_data) : result string :=
  Ok (fmt_u (power_cycles priv) +:+ newline).

(** ** Probe *)

(** Outcomes of the kernel services [octo_probe] calls. *)
Record probe_env : Type := ProbeEnv {
  kzalloc_ok : bool;
  hid_parse_ret : Z;
  hid_hw_start_ret : Z;
  hid_hw_open_ret : Z;
  hwmon_register_err : Z      (* 0, or the error carried by the ERR_PTR *)
}.

(** Memory from [devm_kzalloc]: every byte zero. *)
Definition octo_data_zero : octo_data :=
  OctoData (replicate 4 0) (replicate 9 0) (replicate 8 0) (replicate 9 0)
           (replicate 8 0) (replicate 2 0) 0 0 0.

(** Return value of [octo_probe] and, when the device was bound, its
    driver data. *)
Definition octo_probe (cfg : kconfig) (env : probe_env) (jiffies : Z)
    : Z * option octo_data :=
  if negb (kzalloc_ok env) then (- ENOMEM, None) else
  let priv :=
    with_updated octo_data_zero
      (to_ulong cfg (to_ulong cfg jiffies - OCTO_STATUS_UPDATE_INTERVAL cfg)) in
  if negb (hid_parse_ret env =? 0) then (hid_parse_ret env, None)
  else if negb (hid_hw_start_ret env =? 0) then (hid_hw_start_ret env, None)
  else if negb (hid_hw_open_ret env =? 0) then (hid_hw_open_ret env, None)
  else if negb (hwmon_register_err env =? 0) then (hwmon_register_err env, None)
  else (0, Some priv).

(** * Specification vocabulary *)

(** Channel ranges per sensor category. *)
Definition channel_count (type : hwmon_sensor_types) : Z :=
  match type with
  | hwmon_temp => 4
  | hwmon_fan => 9
  | hwmon_power => 8
  | hwmon_in => 9
  | hwmon_curr => 8
  | _ => 0
  end.

Definition channel_in_range (type : hwmon_sensor_types) (channel : Z) : bool :=
  (0 <=? channel) && (channel <? channel_count type).

Definition supported (type : hwmon_sensor_types) : bool :=
  match type with
  | hwmon_temp | hwmon_fan | hwmon_power | hwmon_in | hwmon_curr => true
  | _ => false
  end.

(** The array a query of a given category reads. *)
Definition value_table (priv : octo_data) (type : hwmon_sensor_types) : list Z :=
  match type with
  | hwmon_temp => temp_input priv
  | hwmon_fan => speed_input priv
  | hwmon_power => power_input priv
  | hwmon_in => voltage_input priv
  | hwmon_curr => current_input priv
  | _ => []
  end.

Definition label_table (type : hwmon_sensor_types) : list string :=
  match type with
  | hwmon_temp => label_temps
  | hwmon_fan => label_speeds
  | hwmon_power => label_power
  | hwmon_in => label_voltages
  | hwmon_curr => label_current
  | _ => []
  end.

(** Channels the capability table registers with the hwmon core. *)
Definition advertised (type : hwmon_sensor_types) (channel : Z) : Prop :=
  ∃ cfgs, (type, cfgs) ∈ octo_info ∧ 0 <= channel < Z.of_nat (length cfgs).

(** Report offsets by category, in channel order. *)
Definition temp_offsets : list Z := [OCTO_TEMP1; OCTO_TEMP2; OCTO_TEMP3; OCTO_TEMP4].
Definition fan_speed_offsets : list Z :=
  [OCTO_FAN1_SPEED; OCTO_FAN2_SPEED; OCTO_FAN3_SPEED; OCTO_FAN4_SPEED;
   OCTO_FAN5_SPEED; OCTO_FAN6_SPEED; OCTO_FAN7_SPEED; OCTO_FAN8_SPEED].
Definition power_offsets : list Z :=
  [OCTO_FAN1_POWER; OCTO_FAN2_POWER; OCTO_FAN3_POWER; OCTO_FAN4_POWER;
   OCTO_FAN5_POWER; OCTO_FAN6_POWER; OCTO_FAN7_POWER; OCTO_FAN8_POWER].
Definition voltage_offsets : list Z :=
  [OCTO_VOLTAGE; OCTO_FAN1_VOLTAGE; OCTO_FAN2_VOLTAGE; OCTO_FAN3_VOLTAGE;
   OCTO_FAN4_VOLTAGE; OCTO_FAN5_VOLTAGE; OCTO_FAN6_VOLTAGE; OCTO_FAN7_VOLTAGE;
   OCTO_FAN8_VOLTAGE].
Definition current_offsets : list Z :=
  [OCTO_FAN1_CURRENT; OCTO_FAN2_CURRENT; OCTO_FAN3_CURRENT; OCTO_FAN4_CURRENT;
   OCTO_FAN5_CURRENT; OCTO_FAN6_CURRENT; OCTO_FAN7_CURRENT; OCTO_FAN8_CURRENT].

(** One past the last byte the handler reads: [OCTO_FAN8_SPEED + 2]. *)
Definition OCTO_MIN_REPORT_LEN : Z := 226.

(** Byte [off] of the buffer as a number, 0 outside it. *)
Definition byte_at (data : list byte) (off : Z) : Z :=
  u8 (nth (Z.to_nat off) data x00).

(** Big-endian 16- and 32-bit fields, arithmetically. *)
Definition raw16 (data : list byte) (off : Z) : Z :=
  256 * byte_at data off + byte_at data (off + 1).

Definition raw32 (data : list byte) (off : Z) : Z :=
  16777216 * byte_at data off + 65536 * byte_at data (off + 1)
  + 256 * byte_at data (off + 2) + byte_at data (off + 3).

(** The arrays of the structure have their declared sizes. *)
Definition array_lengths_ok (priv : octo_data) : Prop :=
  length (temp_input priv) = 4%nat ∧ length (speed_input priv) = 9%nat ∧
  length (power_input priv) = 8%nat ∧ length (voltage_input priv) = 9%nat ∧
  length (current_input priv) = 8%nat ∧ length (serial_number priv) = 2%nat.

(** Sensor part and identity part of the structure. *)
Definition snapshot (priv : octo_data) : list Z * list Z * list Z * list Z * list Z :=
  (temp_input priv, speed_input priv, power_input priv, voltage_input priv,
   current_input priv).

Definition identity (priv : octo_data) : list Z * Z * Z :=
  (serial_number priv, firmware_version priv, power_cycles priv).

(** What a status report leaves in the structure. *)
Definition published (cfg : kconfig) (data : list byte) (jiffies : Z) : octo_data :=
  OctoData
    ((λ off, to_s32 (int_mul (raw16 data off) 10)) <$> temp_offsets)
    (to_u16 (int_div (raw16 data OCTO_FLOW_SPEED) 10)
       :: ((λ off, to_u16 (raw16 data off)) <$> fan_speed_offsets))
    ((λ off, to_u32 (int_mul (raw16 data off) 10000)) <$> power_offsets)
    ((λ off, to_u16 (int_mul (raw16 data off) 10)) <$> voltage_offsets)
    ((λ off, to_u16 (raw16 data off)) <$> current_offsets)
    [to_u32 (raw16 data OCTO_SERIAL_FIRST_PART);
     to_u32 (raw16 data OCTO_SERIAL_SECOND_PART)]
    (to_u16 (raw16 data OCTO_FIRMWARE_VERSION))
    (to_u32 (raw32 data OCTO_POWER_CYCLES))
    (to_ulong cfg jiffies).

(** Structures the driver can hold: the one [octo_probe] installs, and
    any obtained from it by report deliveries. *)
Inductive reachable (cfg : kconfig) : octo_data -> Prop :=
  | reach_probe env jiffies priv :
      octo_probe cfg env jiffies = (0, Some priv) ->
      reachable cfg priv
  | reach_event priv report_id data size jiffies ret priv' :
      reachable cfg priv ->
      octo_raw_event cfg priv report_id data size jiffies = Some (ret, priv') ->
      reachable cfg priv'.

(** Value ranges the handler establishes. *)
Definition octo_data_inv (cfg : kconfig) (priv : octo_data) : Prop :=
  array_lengths_ok priv ∧
  Forall (λ v, 0 <= v <= 655350) (temp_input priv) ∧
  Forall (λ v, 0 <= v <= 65535) (speed_input priv) ∧
  Forall (λ v, 0 <= v <= 655350000) (power_input priv) ∧
  Forall (λ v, 0 <= v <= 65535) (voltage_input priv) ∧
  Forall (λ v, 0 <= v <= 65535) (current_input priv) ∧
  0 <= updated priv < 2 ^ BITS_PER_LONG cfg.

#[global] Instance hwmon_sensor_types_eq_dec : EqDecision hwmon_sensor_types.
Proof. solve_decision. Defined.

(** ** Channel registry as functions

    The offset and the scaling of a channel, by category and index, as
    the statements of [octo_raw_event] pair them. *)

Definition speed_offsets : list Z := OCTO_FLOW_SPEED :: fan_speed_offsets.

Definition offset_table (type : hwmon_sensor_types) : list Z :=
  match type with
  | hwmon_temp => temp_offsets
  | hwmon_fan => speed_offsets
  | hwmon_power => power_offsets
  | hwmon_in => voltage_offsets
  | hwmon_curr => current_offsets
  | _ => []
  end.

(** Mathematical value the handler stores for a raw field. *)
Definition channel_scale (type : hwmon_sensor_types) (channel raw : Z) : Z :=
  match type with
  | hwmon_temp => raw * 10
  | hwmon_fan => if channel =? 0 then raw / 10 else raw
  | hwmon_power => raw * 10000
  | hwmon_in => (raw * 10) mod 65536
  | hwmon_curr => raw
  | _ => 0
  end.

(** Largest value a channel can hold. *)
Definition channel_max (type : hwmon_sensor_types) (channel : Z) : Z :=
  match type with
  | hwmon_temp => 655350
  | hwmon_fan => if channel =? 0 then 6553 else 65535
  | hwmon_power => 655350000
  | hwmon_in => 65535
  | hwmon_curr => 65535
  | _ => 0
  end.

(** Every 16-bit field the handler reads, and its one 32-bit field. *)
Definition identity16_offsets : list Z :=
  [OCTO_SERIAL_FIRST_PART; OCTO_SERIAL_SECOND_PART; OCTO_FIRMWARE_VERSION].

Definition field16_offsets : list Z :=
  identity16_offsets ++ temp_offsets ++ speed_offsets ++ power_offsets
  ++ voltage_offsets ++ current_offsets.

(** Byte ranges [(offset, width)] of all fields. *)
Definition layout : list (Z * Z) :=
  (OCTO_POWER_CYCLES, 4) :: ((λ off, (off, 2)) <$> field16_offsets).

(** Whether byte [i] of the buffer belongs to a field. *)
Definition layout_byte (i : Z) : bool :=
  existsb (λ f, (fst f <=? i) && (i <? fst f + snd f)) layout.

(** All channels with their offsets. *)
Definition registry : list (hwmon_sensor_types * Z * Z) :=
  concat ((λ type, imap (λ i off, (type, Z.of_nat i, off)) (offset_table type))
          <$> [hwmon_temp; hwmon_fan; hwmon_power; hwmon_in; hwmon_curr]).

(** Two entries of the registry are the same channel or their fields
    are two bytes apart. *)
Definition apart (p q : hwmon_sensor_types * Z * Z) : Prop :=
  p = q ∨ snd p + 2 <= snd q ∨ snd q + 2 <= snd p.

#[global] Instance apart_dec p q : Decision (apart p q).
Proof. unfold apart. apply _. Defined.

(** All channels with their labels. *)
Definition labelled : list (hwmon_sensor_types * Z * string) :=
  concat ((λ type, imap (λ i label, (type, Z.of_nat i, label)) (label_table type))
          <$> [hwmon_temp; hwmon_fan; hwmon_power; hwmon_in; hwmon_curr]).

(** Two labelled channels with one label are in one category, and are
    one channel or two current channels four apart. *)
Definition same_label_close (p q : hwmon_sensor_types * Z * string) : Prop :=
  snd p = snd q ->
  fst (fst p) = fst (fst q) ∧
  (snd (fst p) = snd (fst q) ∨
   (fst (fst p) = hwmon_curr ∧
    (snd (fst q) = snd (fst p) + 4 ∨ snd (fst p) = snd (fst q) + 4))).

#[global] Instance same_label_close_dec p q : Decision (same_label_close p q).
Proof. unfold same_label_close. apply _. Defined.

(** ** Reading the debugfs text back *)

(** A decimal number, leading zeros allowed. *)
Definition read_u (s : string) : option Z :=
  match NilZero.uint_of_string s with
  | Some d => Some (Z.of_N (N.of_uint d))
  | None => None
  end.

(** Whether [f] holds of the [fuel] integers from [k] on. *)
Fixpoint all_from (fuel : nat) (k : Z) (f : Z -> bool) : bool :=
  match fuel with
  | O => true
  | S fuel' => f k && all_from fuel' (k + 1) f
  end.

(** ** Debugfs setup, probe and remove as sequences of kernel calls *)

Definition DRIVER_NAME : string := "aquacomputer-octo".

(** The first [n] characters of a string. *)
Fixpoint truncate (n : nat) (s : string) : string :=
  match n, s with
  | S n', String c s' => String c (truncate n' s')
  | _, _ => EmptyString
  end.

(** Text left in the buffer by [scnprintf(buf, size, "%s-%s", a, b)]:
    at most [size - 1] characters. *)
Definition scnprintf_s_s (size : nat) (a b : string) : string :=
  truncate (size - 1) (a +:+ "-" +:+ b).

(** Calls into the kernel, with the outcome the kernel gave where the
    driver looks at it. *)
Inductive kcall : Type :=
  | call_devm_kzalloc (ok : bool)
  | call_hid_set_drvdata
  | call_hid_parse (ret : Z)
  | call_hid_hw_start (ret : Z)
  | call_hid_hw_open (ret : Z)
  | call_hwmon_register (err : Z)
  | call_debugfs_create_dir (name : string)
  | call_debugfs_create_file (name : string) (mode : Z)
  | call_debugfs_remove_recursive
  | call_hwmon_unregister
  | call_hid_hw_close
  | call_hid_hw_stop.

(** [octo_debugfs_init]; empty without [CONFIG_DEBUG_FS]. *)
Definition octo_debugfs_init (debug_fs : bool) (dev_name : string) : list kcall :=
  if debug_fs then
    [call_debugfs_create_dir (scnprintf_s_s 32 DRIVER_NAME dev_name);
     call_debugfs_create_file "serial_number" 292;
     call_debugfs_create_file "firmware_version" 292;
     call_debugfs_create_file "power_cycles" 292]
  else [].







(** ** Sequences of deliveries

    The HID core calls [octo_raw_event] once per report, each call
    starting from the structure the previous one left. *)

Record delivery : Type := Delivery {
  d_report_id : Z;
  d_data : list byte;
  d_size : Z;
  d_jiffies : Z
}.

Fixpoint octo_raw_events (cfg : kconfig) (priv : octo_data) (ds : list delivery)
    : option octo_data :=
  match ds with
  | [] => Some priv
  | d :: rest =>
      match octo_raw_event cfg priv (d_report_id d) (d_data d) (d_size d)
              (d_jiffies d) with
      | Some (_, priv') => octo_raw_events cfg priv' rest
      | None => None
      end
  end.

(** The last delivery of the sequence that carries the status
    identifier. *)
Fixpoint last_status (ds : list delivery) : option delivery :=
  match ds with
  | [] => None
  | d :: rest =>
      match last_status rest with
      | Some d' => Some d'
      | None => if d_report_id d =? OCTO_STATUS_REPORT_ID then Some d else None
      end
  end.

(** ** Sample configurations, buffers and states *)

(** A 64-bit build with 250 ticks per second, and a 32-bit build with
    1000. *)
Definition cfg64 : kconfig := Kconfig 64 250.
Definition cfg32 : kconfig := Kconfig 32 1000.

(** Every kernel service succeeds. *)
Definition env_ok : probe_env := ProbeEnv true 0 0 0 0.

(** Stores [v] as a big-endian 16-bit field at [off]. *)
Definition poke16 (off : nat) (v : Z) (data : list byte) : list byte :=
  <[off := default x00 (Byte.of_N (Z.to_N (v / 256)))]>
    (<[S off := default x00 (Byte.of_N (Z.to_N (v mod 256)))]> data).

(** A status report: serial 12345-00678, firmware 1019, temperature 1
    [0x00C8], flow [0x0032], fan 1 power [0x0001], supply voltage
    [0x0005], fan 2 current 300. *)
Definition sample_report : list byte :=
  poke16 3 12345 (poke16 5 678 (poke16 13 1019
    (poke16 61 0x00C8 (poke16 123 0x0032 (poke16 131 0x0001
      (poke16 117 0x0005 (poke16 142 300 (replicate 226 x00)))))))).

(** A status report whose supply-voltage field is 6554 ([0x199A]). *)
Definition high_voltage_report : list byte :=
  poke16 117 0x199A (replicate 226 x00).

(** A 256-byte transfer buffer still holding an earlier status report; a
    delivery that announces only 8 bytes leaves the rest in place. *)
Definition transfer_buffer : list byte := sample_report ++ replicate 30 x00.

(** Names the HID core gives two Octo devices on one USB bus. *)
Definition first_octo_name : string := "0003:0C70:F011.0001".
Definition second_octo_name : string := "0003:0C70:F011.0002".

(** Four deliveries: a status report, another report, a second status
    report with a different buffer, another report. *)
Definition sample_deliveries : list delivery :=
  [Delivery OCTO_STATUS_REPORT_ID sample_report 226 1000;
   Delivery 2 sample_report 226 1500;
   Delivery OCTO_STATUS_REPORT_ID high_voltage_report 226 2000;
   Delivery 3 [] 0 2500].


(** The structure installed by a probe at tick 600 of [cfg64]. *)
Definition probed_at_600 : octo_data := with_updated octo_data_zero 100.

(** * Properties *)

(** ** Integer conversions *)

Section Conversions.

Lemma wrap_small w z : 0 <= z < 2 ^ w -> wrap w z = z.
Proof. intros H. unfold wrap. apply Z.mod_small. exact H. Qed.

Lemma wrap_range w z : 0 <= w -> 0 <= wrap w z < 2 ^ w.
Proof.
  intros Hw. unfold wrap. apply Z.mod_pos_bound.
  apply Z.pow_pos_nonneg; lia.
Qed.

Lemma pow2_half w : 1 <= w -> 2 ^ w = 2 * 2 ^ (w - 1).
Proof.
  intros Hw. replace w with (Z.succ (w - 1)) at 1 by lia.
  rewrite Z.pow_succ_r by lia. reflexivity.
Qed.

Lemma swrap_small w z : 1 <= w -> 0 <= z < 2 ^ (w - 1) -> swrap w z = z.
Proof.
  intros Hw Hz. unfold swrap. cbv zeta.
  pose proof (pow2_half w Hw) as Hp.
  rewrite Z.mod_small by lia.
  destruct (Z.ltb_spec z (2 ^ (w - 1))); lia.
Qed.

(** A difference that stays within half the range keeps its sign. *)
Lemma swrap_wrap_diff w d :
  1 <= w -> - 2 ^ (w - 1) <= d < 2 ^ (w - 1) -> swrap w (wrap w d) = d.
Proof.
  intros Hw Hd. unfold swrap, wrap. cbv zeta.
  pose proof (pow2_half w Hw) as Hp.
  assert (Hpos : 0 < 2 ^ (w - 1)) by (apply Z.pow_pos_nonneg; lia).
  rewrite Z.mod_mod by lia.
  destruct (Z_lt_le_dec d 0) as [Hneg | Hnn].
  - assert (Hm : d mod 2 ^ w = d + 2 ^ w).
    { symmetry. apply Z.mod_unique with (q := -1); lia. }
    rewrite Hm. destruct (Z.ltb_spec (d + 2 ^ w) (2 ^ (w - 1))); lia.
  - rewrite Z.mod_small by lia.
    destruct (Z.ltb_spec d (2 ^ (w - 1))); lia.
Qed.

Lemma wrap_sub_wrap w a b : 0 <= w -> wrap w (wrap w a - wrap w b) = wrap w (a - b).
Proof.
  intros Hw. unfold wrap. symmetry. apply Zminus_mod.
Qed.

Lemma wrap_add_wrap_l w a b : wrap w (wrap w a + b) = wrap w (a + b).
Proof. unfold wrap. apply Zplus_mod_idemp_l. Qed.

Lemma wrap_sub_wrap_l w a b : wrap w (wrap w a - b) = wrap w (a - b).
Proof. unfold wrap. apply Zminus_mod_idemp_l. Qed.

Lemma wrap_sub_wrap_r w a b : wrap w (a - wrap w b) = wrap w (a - b).
Proof. unfold wrap. apply Zminus_mod_idemp_r. Qed.

Lemma wrap_idem w a : wrap w (wrap w a) = wrap w a.
Proof. unfold wrap. apply Zmod_mod. Qed.

End Conversions.

(** ** Reading the buffer *)

Section Buffer.

Lemma u8_range b : 0 <= u8 b < 256.
Proof.
  unfold u8. pose proof (Byte.to_N_bounded b) as Hb. lia.
Qed.

Lemma byte_at_range data off : 0 <= byte_at data off < 256.
Proof. apply u8_range. Qed.

Lemma raw16_range data off : 0 <= raw16 data off <= 65535.
Proof.
  unfold raw16.
  pose proof (byte_at_range data off). pose proof (byte_at_range data (off + 1)).
  lia.
Qed.

Lemma raw32_range data off : 0 <= raw32 data off < 2 ^ 32.
Proof.
  unfold raw32.
  pose proof (byte_at_range data off). pose proof (byte_at_range data (off + 1)).
  pose proof (byte_at_range data (off + 2)). pose proof (byte_at_range data (off + 3)).
  change (2 ^ 32) with 4294967296. lia.
Qed.

(** Or-ing a value below [2 ^ k] into a value shifted by [k] adds it. *)
Lemma lor_shiftl_add a b k :
  0 <= k -> 0 <= b < 2 ^ k -> Z.lor (Z.shiftl a k) b = a * 2 ^ k + b.
Proof.
  intros Hk Hb.
  assert (Hdisj : Z.land (Z.shiftl a k) b = 0).
  { apply Z.bits_inj'. intros n Hn.
    rewrite Z.land_spec, Z.bits_0.
    destruct (Z_lt_le_dec n k) as [Hlt | Hge].
    - rewrite Z.shiftl_spec_low by lia. reflexivity.
    - assert (Hbn : Z.testbit b n = false).
      { destruct (Z.eq_dec b 0) as [-> | Hnz]; [apply Z.bits_0 |].
        apply Z.bits_above_log2; [lia |].
        apply Z.lt_le_trans with k; [| exact Hge].
        apply Z.log2_lt_pow2; lia. }
      rewrite Hbn. apply andb_false_r. }
  rewrite <- Z.lxor_lor by exact Hdisj.
  rewrite <- Z.add_nocarry_lxor by exact Hdisj.
  rewrite Z.shiftl_mul_pow2 by lia. reflexivity.
Qed.

Lemma lor_disjoint_add a b k :
  0 <= k -> 0 <= b < 2 ^ k -> (2 ^ k | a) -> Z.lor a b = a + b.
Proof.
  intros Hk Hb [c ->].
  rewrite <- Z.shiftl_mul_pow2 by lia.
  rewrite lor_shiftl_add by assumption.
  rewrite Z.shiftl_mul_pow2 by lia. reflexivity.
Qed.

Lemma lookup_byte_at (data : list byte) off :
  0 <= off < Z.of_nat (length data) ->
  ∃ b, data !! Z.to_nat off = Some b ∧ u8 b = byte_at data off.
Proof.
  intros Hoff.
  destruct (lookup_lt_is_Some_2 data (Z.to_nat off)) as [b Hb]; [lia |].
  exists b. split; [exact Hb |].
  unfold byte_at. f_equal. symmetry. apply nth_lookup_Some with (d := x00).
  exact Hb.
Qed.

Lemma get_unaligned_be16_raw16 data off :
  0 <= off -> off + 2 <= Z.of_nat (length data) ->
  get_unaligned_be16 data off = Some (raw16 data off).
Proof.
  intros H0 Hlen. unfold get_unaligned_be16.
  destruct (Z.ltb_spec off 0); [lia |].
  destruct (lookup_byte_at data off) as (b0 & -> & E0); [lia |].
  destruct (lookup_byte_at data (off + 1)) as (b1 & -> & E1); [lia |].
  f_equal. rewrite lor_shiftl_add by (pose proof (u8_range b1); lia).
  unfold raw16. rewrite E0, E1. lia.
Qed.

Lemma get_unaligned_be32_raw32 data off :
  0 <= off -> off + 4 <= Z.of_nat (length data) ->
  get_unaligned_be32 data off = Some (raw32 data off).
Proof.
  intros H0 Hlen. unfold get_unaligned_be32.
  destruct (Z.ltb_spec off 0); [lia |].
  destruct (lookup_byte_at data off) as (b0 & -> & E0); [lia |].
  destruct (lookup_byte_at data (off + 1)) as (b1 & -> & E1); [lia |].
  destruct (lookup_byte_at data (off + 2)) as (b2 & -> & E2); [lia |].
  destruct (lookup_byte_at data (off + 3)) as (b3 & -> & E3); [lia |].
  f_equal.
  pose proof (u8_range b0). pose proof (u8_range b1).
  pose proof (u8_range b2). pose proof (u8_range b3).
  rewrite !Z.shiftl_mul_pow2 by lia.
  rewrite (lor_disjoint_add _ (u8 b1 * 2 ^ 16) 24);
    [| lia | lia | exists (u8 b0); reflexivity].
  rewrite (lor_disjoint_add _ (u8 b2 * 2 ^ 8) 16);
    [| lia | lia | exists (u8 b0 * 2 ^ 8 + u8 b1); lia].
  rewrite (lor_disjoint_add _ (u8 b3) 8);
    [| lia | lia | exists (u8 b0 * 2 ^ 16 + u8 b1 * 2 ^ 8 + u8 b2); lia].
  unfold raw32. rewrite E0, E1, E2, E3. lia.
Qed.

(** A read that leaves the buffer has no result. *)
Lemma get_unaligned_be16_short data off :
  0 <= off -> Z.of_nat (length data) < off + 2 ->
  get_unaligned_be16 data off = None.
Proof.
  intros H0 Hlen. unfold get_unaligned_be16.
  destruct (Z.ltb_spec off 0); [lia |].
  destruct (data !! Z.to_nat off) eqn:E0; [| reflexivity].
  rewrite (lookup_ge_None_2 data (Z.to_nat (off + 1))); [reflexivity |].
  apply lookup_lt_Some in E0. lia.
Qed.

End Buffer.

(** ** Running the report handler *)

Section Handler.

(** Offsets are unfolded where arithmetic needs their values. *)
Create HintDb octo_layout discriminated.
#[local] Hint Unfold
  OCTO_SERIAL_FIRST_PART OCTO_SERIAL_SECOND_PART OCTO_FIRMWARE_VERSION
  OCTO_POWER_CYCLES OCTO_TEMP1 OCTO_TEMP2 OCTO_TEMP3 OCTO_TEMP4
  OCTO_FLOW_SPEED OCTO_FAN1_SPEED OCTO_FAN2_SPEED OCTO_FAN3_SPEED
  OCTO_FAN4_SPEED OCTO_FAN5_SPEED OCTO_FAN6_SPEED OCTO_FAN7_SPEED
  OCTO_FAN8_SPEED OCTO_FAN1_POWER OCTO_FAN2_POWER OCTO_FAN3_POWER
  OCTO_FAN4_POWER OCTO_FAN5_POWER OCTO_FAN6_POWER OCTO_FAN7_POWER
  OCTO_FAN8_POWER OCTO_VOLTAGE OCTO_FAN1_VOLTAGE OCTO_FAN2_VOLTAGE
  OCTO_FAN3_VOLTAGE OCTO_FAN4_VOLTAGE OCTO_FAN5_VOLTAGE OCTO_FAN6_VOLTAGE
  OCTO_FAN7_VOLTAGE OCTO_FAN8_VOLTAGE OCTO_FAN1_CURRENT OCTO_FAN2_CURRENT
  OCTO_FAN3_CURRENT OCTO_FAN4_CURRENT OCTO_FAN5_CURRENT OCTO_FAN6_CURRENT
  OCTO_FAN7_CURRENT OCTO_FAN8_CURRENT OCTO_MIN_REPORT_LEN
  : octo_layout.

Lemma be16_ok data off s :
  0 <= off -> off + 2 <= Z.of_nat (length data) ->
  be16 data off s = Some (raw16 data off, s).
Proof.
  intros H0 Hlen. unfold be16.
  rewrite get_unaligned_be16_raw16 by assumption. reflexivity.
Qed.

Lemma be32_ok data off s :
  0 <= off -> off + 4 <= Z.of_nat (length data) ->
  be32 data off s = Some (raw32 data off, s).
Proof.
  intros H0 Hlen. unfold be32.
  rewrite get_unaligned_be32_raw32 by assumption. reflexivity.
Qed.

Lemma exec_bind_unfold {A B} (m : exec A) (k : A -> exec B) s :
  (m ≫= k) s = match m s with Some (a, s') => k a s' | None => None end.
Proof. reflexivity. Qed.

(** A list of known length is the list of its elements. *)
Ltac explicit_list l H :=
  repeat (destruct l as [| ? l]; [discriminate H |]);
  destruct l; [| discriminate H]; clear H.

#[local] Arguments be16 : simpl never.
#[local] Arguments be32 : simpl never.
#[local] Arguments raw16 : simpl never.
#[local] Arguments raw32 : simpl never.
#[local] Arguments to_u16 : simpl never.
#[local] Arguments to_u32 : simpl never.
#[local] Arguments to_s32 : simpl never.
#[local] Arguments to_ulong : simpl never.
#[local] Arguments int_mul : simpl never.
#[local] Arguments int_div : simpl never.

Lemma set_serial_number_ok i v s :
  (i < length (serial_number s))%nat ->
  set_serial_number i v s =
  Some ((), OctoData (temp_input s) (speed_input s) (power_input s)
              (voltage_input s) (current_input s)
              (<[i := to_u32 v]> (serial_number s))
              (firmware_version s) (power_cycles s) (updated s)).
Proof. intros Hi. unfold set_serial_number. case_decide; [reflexivity | lia]. Qed.

Lemma set_temp_input_ok i v s :
  (i < length (temp_input s))%nat ->
  set_temp_input i v s =
  Some ((), OctoData (<[i := to_s32 v]> (temp_input s)) (speed_input s)
              (power_input s) (voltage_input s) (current_input s)
              (serial_number s) (firmware_version s) (power_cycles s)
              (updated s)).
Proof. intros Hi. unfold set_temp_input. case_decide; [reflexivity | lia]. Qed.

Lemma set_speed_input_ok i v s :
  (i < length (speed_input s))%nat ->
  set_speed_input i v s =
  Some ((), OctoData (temp_input s) (<[i := to_u16 v]> (speed_input s))
              (power_input s) (voltage_input s) (current_input s)
              (serial_number s) (firmware_version s) (power_cycles s)
              (updated s)).
Proof. intros Hi. unfold set_speed_input. case_decide; [reflexivity | lia]. Qed.

Lemma set_power_input_ok i v s :
  (i < length (power_input s))%nat ->
  set_power_input i v s =
  Some ((), OctoData (temp_input s) (speed_input s)
              (<[i := to_u32 v]> (power_input s)) (voltage_input s)
              (current_input s) (serial_number s) (firmware_version s)
              (power_cycles s) (updated s)).
Proof. intros Hi. unfold set_power_input. case_decide; [reflexivity | lia]. Qed.

Lemma set_voltage_input_ok i v s :
  (i < length (voltage_input s))%nat ->
  set_voltage_input i v s =
  Some ((), OctoData (temp_input s) (speed_input s) (power_input s)
              (<[i := to_u16 v]> (voltage_input s)) (current_input s)
              (serial_number s) (firmware_version s) (power_cycles s)
              (updated s)).
Proof. intros Hi. unfold set_voltage_input. case_decide; [reflexivity | lia]. Qed.

Lemma set_current_input_ok i v s :
  (i < length (current_input s))%nat ->
  set_current_input i v s =
  Some ((), OctoData (temp_input s) (speed_input s) (power_input s)
              (voltage_input s) (<[i := to_u16 v]> (current_input s))
              (serial_number s) (firmware_version s) (power_cycles s)
              (updated s)).
Proof. intros Hi. unfold set_current_input. case_decide; [reflexivity | lia]. Qed.

(** One statement of the handler: a buffer read or a store. *)
Ltac exec_step :=
  rewrite exec_bind_unfold;
  first [ rewrite be16_ok by (autounfold with octo_layout in *; lia)
        | rewrite be32_ok by (autounfold with octo_layout in *; lia)
        | rewrite set_serial_number_ok by (cbn; lia)
        | rewrite set_temp_input_ok by (cbn; lia)
        | rewrite set_speed_input_ok by (cbn; lia)
        | rewrite set_power_input_ok by (cbn; lia)
        | rewrite set_voltage_input_ok by (cbn; lia)
        | rewrite set_current_input_ok by (cbn; lia)
        | unfold set_firmware_version, set_power_cycles, set_updated, with_updated ];
  cbn.

Lemma octo_raw_event_body_published cfg data jiffies priv :
  array_lengths_ok priv ->
  OCTO_MIN_REPORT_LEN <= Z.of_nat (length data) ->
  octo_raw_event_body cfg data jiffies priv = Some (0, published cfg data jiffies).
Proof.
  intros (Ht & Hs & Hp & Hv & Hc & Hn) Hlen.
  destruct priv as [ti si pi vi ci sn fw pc up]. cbn in Ht, Hs, Hp, Hv, Hc, Hn.
  explicit_list ti Ht. explicit_list si Hs. explicit_list pi Hp.
  explicit_list vi Hv. explicit_list ci Hc. explicit_list sn Hn.
  unfold octo_raw_event_body.
  repeat exec_step.
  reflexivity.
Qed.

Lemma exec_bind_inv {A B} (m : exec A) (k : A -> exec B) s r :
  (m ≫= k) s = Some r -> ∃ a s1, m s = Some (a, s1) ∧ k a s1 = Some r.
Proof.
  rewrite exec_bind_unfold. destruct (m s) as [[a s1] |]; [| discriminate].
  intros H. exists a, s1. split; [reflexivity | exact H].
Qed.

(** When the handler runs to its end it has read the last field, so
    the buffer holds the whole layout, and it returns 0. *)
Lemma octo_raw_event_body_inv cfg data jiffies s ret s' :
  octo_raw_event_body cfg data jiffies s = Some (ret, s') ->
  ret = 0 ∧ OCTO_MIN_REPORT_LEN <= Z.of_nat (length data).
Proof.
  unfold octo_raw_event_body. intros H.
  repeat match type of H with
         | (_ ≫= _) _ = Some _ =>
             let Hm := fresh "Hm" in
             apply exec_bind_inv in H as (? & ? & Hm & H); cbv beta in H
         end.
  split.
  - cbv in H. congruence.
  - match goal with
    | Hl : be16 data OCTO_FAN8_SPEED _ = Some _ |- _ =>
        unfold be16 in Hl;
        destruct (Z_lt_le_dec (Z.of_nat (length data)) (OCTO_FAN8_SPEED + 2))
          as [Hshort | Hok];
        [ rewrite get_unaligned_be16_short in Hl
            by (autounfold with octo_layout in *; lia);
          discriminate Hl
        | autounfold with octo_layout in *; lia ]
    end.
Qed.

Lemma octo_raw_event_published cfg priv data size jiffies :
  array_lengths_ok priv ->
  OCTO_MIN_REPORT_LEN <= Z.of_nat (length data) ->
  octo_raw_event cfg priv OCTO_STATUS_REPORT_ID data size jiffies
  = Some (0, published cfg data jiffies).
Proof.
  intros Hwf Hlen. unfold octo_raw_event.
  rewrite Z.eqb_refl. cbn [negb].
  apply octo_raw_event_body_published; assumption.
Qed.

Lemma octo_raw_event_other_id cfg priv report_id data size jiffies :
  report_id ≠ OCTO_STATUS_REPORT_ID ->
  octo_raw_event cfg priv report_id data size jiffies = Some (0, priv).
Proof.
  intros Hid. unfold octo_raw_event.
  destruct (Z.eqb_spec report_id OCTO_STATUS_REPORT_ID); [contradiction |].
  reflexivity.
Qed.

(** Every completed delivery either ignored the report or published it. *)
Lemma octo_raw_event_inv cfg priv report_id data size jiffies ret priv' :
  array_lengths_ok priv ->
  octo_raw_event cfg priv report_id data size jiffies = Some (ret, priv') ->
  ret = 0 ∧
  ((report_id ≠ OCTO_STATUS_REPORT_ID ∧ priv' = priv) ∨
   (report_id = OCTO_STATUS_REPORT_ID ∧
    OCTO_MIN_REPORT_LEN <= Z.of_nat (length data) ∧
    priv' = published cfg data jiffies)).
Proof.
  intros Hwf H. unfold octo_raw_event in H.
  destruct (Z.eqb_spec report_id OCTO_STATUS_REPORT_ID) as [-> | Hne];
    cbn [negb] in H.
  - destruct (octo_raw_event_body_inv _ _ _ _ _ _ H) as [-> Hlen].
    split; [reflexivity |]. right.
    rewrite octo_raw_event_body_published in H by assumption.
    split; [reflexivity |]. split; [assumption |]. congruence.
  - inversion H; subst. split; [reflexivity |]. left. split; [assumption | reflexivity].
Qed.

End Handler.

(** ** Scaling arithmetic

    Which of the handler's conversions lose nothing on a 16-bit field. *)

Section Scaling.

Variable r : Z.
Hypothesis r_u16 : 0 <= r <= 65535.

Lemma to_s32_small z : 0 <= z < 2147483648 -> to_s32 z = z.
Proof. intros Hz. unfold to_s32. apply swrap_small; [lia |]. exact Hz. Qed.

Lemma to_u16_small z : 0 <= z <= 65535 -> to_u16 z = z.
Proof.
  intros Hz. unfold to_u16. apply wrap_small. change (2 ^ 16) with 65536. lia.
Qed.

Lemma to_u32_small z : 0 <= z < 4294967296 -> to_u32 z = z.
Proof. intros Hz. unfold to_u32. apply wrap_small. exact Hz. Qed.

Lemma temp_scaling : to_s32 (int_mul r 10) = r * 10.
Proof.
  unfold int_mul. rewrite (to_s32_small (r * 10)) by lia.
  apply to_s32_small. lia.
Qed.

Lemma flow_scaling : to_u16 (int_div r 10) = r / 10.
Proof.
  unfold int_div. rewrite Z.quot_div_nonneg by lia.
  assert (0 <= r / 10 <= 6553).
  { split; [apply Z.div_pos; lia |].
    apply Z.lt_succ_r. apply Z.div_lt_upper_bound; lia. }
  rewrite to_s32_small by lia. apply to_u16_small. lia.
Qed.

Lemma unscaled_u16 : to_u16 r = r.
Proof. apply to_u16_small. exact r_u16. Qed.

Lemma power_scaling : to_u32 (int_mul r 10000) = r * 10000.
Proof.
  unfold int_mul. rewrite to_s32_small by lia. apply to_u32_small. lia.
Qed.

(** The voltage field is a [u16]: the product is kept modulo [2 ^ 16]. *)
Lemma voltage_scaling_mod : to_u16 (int_mul r 10) = (r * 10) mod 65536.
Proof. unfold int_mul. rewrite to_s32_small by lia. reflexivity. Qed.

Lemma voltage_scaling : r <= 6553 -> to_u16 (int_mul r 10) = r * 10.
Proof.
  intros Hr. rewrite voltage_scaling_mod. apply Z.mod_small. lia.
Qed.

Lemma voltage_scaling_range : 0 <= to_u16 (int_mul r 10) <= 65535.
Proof.
  rewrite voltage_scaling_mod.
  pose proof (Z.mod_pos_bound (r * 10) 65536). lia.
Qed.

End Scaling.

(** ** The state invariant *)

Section Invariant.

Variable cfg : kconfig.
Hypothesis cfg_ok : kconfig_ok cfg.

Lemma published_lengths data jiffies : array_lengths_ok (published cfg data jiffies).
Proof. repeat split. Qed.

Lemma to_ulong_range z : 0 <= to_ulong cfg z < 2 ^ BITS_PER_LONG cfg.
Proof. apply wrap_range. destruct cfg_ok. lia. Qed.

Lemma published_inv data jiffies : octo_data_inv cfg (published cfg data jiffies).
Proof.
  split; [apply published_lengths |].
  unfold published, temp_offsets, fan_speed_offsets, power_offsets,
    voltage_offsets, current_offsets.
  cbn [temp_input speed_input power_input voltage_input current_input updated
       fmap list_fmap].
  repeat split; try apply to_ulong_range;
    repeat (apply Forall_cons; split); try (apply Forall_nil; exact I).
  all: match goal with
       | |- context [raw16 ?d ?o] => pose proof (raw16_range d o) as Hr
       end.
  all: first [ rewrite temp_scaling by exact Hr
             | rewrite flow_scaling by exact Hr
             | rewrite power_scaling by exact Hr
             | rewrite unscaled_u16 by exact Hr
             | apply voltage_scaling_range; exact Hr ];
    try lia.
  split; [apply Z.div_pos; lia |].
  apply Z.div_le_upper_bound; lia.
Qed.

Lemma probe_state env jiffies priv :
  octo_probe cfg env jiffies = (0, Some priv) ->
  priv = with_updated octo_data_zero
           (to_ulong cfg (to_ulong cfg jiffies - OCTO_STATUS_UPDATE_INTERVAL cfg)).
Proof.
  unfold octo_probe. intros H.
  repeat match type of H with
         | (if ?c then _ else _) = _ => destruct c; [discriminate H |]
         end.
  cbv zeta in H. congruence.
Qed.

Lemma probe_inv env jiffies priv :
  octo_probe cfg env jiffies = (0, Some priv) -> octo_data_inv cfg priv.
Proof.
  intros H. rewrite (probe_state _ _ _ H).
  split; [repeat split |].
  cbn. repeat split; try apply to_ulong_range;
    repeat (apply Forall_cons; split); try (apply Forall_nil; exact I); lia.
Qed.

(** Induction on the deliveries that led to the structure. *)
Lemma reachable_inv priv : reachable cfg priv -> octo_data_inv cfg priv.
Proof.
  induction 1 as [env j priv Hp | priv id data size j ret priv' Hr IH Hev].
  - eapply probe_inv; eassumption.
  - destruct (octo_raw_event_inv _ _ _ _ _ _ _ _ (proj1 IH) Hev)
      as [_ [[_ ->] | (_ & _ & ->)]].
    + exact IH.
    + apply published_inv.
Qed.

End Invariant.

(** ** Lookups in the published structure *)

Section PublishedFields.

Variables (cfg : kconfig) (data : list byte) (jiffies : Z).

Lemma published_temp i off :
  temp_offsets !! i = Some off ->
  temp_input (published cfg data jiffies) !! i = Some (raw16 data off * 10).
Proof.
  intros H. cbn [published temp_input]. rewrite list_lookup_fmap, H. cbn.
  rewrite temp_scaling by apply raw16_range. reflexivity.
Qed.

Lemma published_flow :
  speed_input (published cfg data jiffies) !! 0%nat
  = Some (raw16 data OCTO_FLOW_SPEED / 10).
Proof.
  cbn [published speed_input lookup list_lookup].
  rewrite flow_scaling by apply raw16_range. reflexivity.
Qed.

Lemma published_fan_speed i off :
  fan_speed_offsets !! i = Some off ->
  speed_input (published cfg data jiffies) !! S i = Some (raw16 data off).
Proof.
  intros H. cbn [published speed_input]. rewrite lookup_cons.
  rewrite list_lookup_fmap, H. cbn.
  rewrite unscaled_u16 by apply raw16_range. reflexivity.
Qed.

Lemma published_power i off :
  power_offsets !! i = Some off ->
  power_input (published cfg data jiffies) !! i = Some (raw16 data off * 10000).
Proof.
  intros H. cbn [published power_input]. rewrite list_lookup_fmap, H. cbn.
  rewrite power_scaling by apply raw16_range. reflexivity.
Qed.

Lemma published_voltage_mod i off :
  voltage_offsets !! i = Some off ->
  voltage_input (published cfg data jiffies) !! i
  = Some ((raw16 data off * 10) mod 65536).
Proof.
  intros H. cbn [published voltage_input]. rewrite list_lookup_fmap, H. cbn.
  rewrite voltage_scaling_mod by apply raw16_range. reflexivity.
Qed.

Lemma published_voltage i off :
  voltage_offsets !! i = Some off -> raw16 data off <= 6553 ->
  voltage_input (published cfg data jiffies) !! i = Some (raw16 data off * 10).
Proof.
  intros H Hr. rewrite (published_voltage_mod _ _ H).
  rewrite Z.mod_small; [reflexivity |]. pose proof (raw16_range data off). lia.
Qed.

Lemma published_current i off :
  current_offsets !! i = Some off ->
  current_input (published cfg data jiffies) !! i = Some (raw16 data off).
Proof.
  intros H. cbn [published current_input]. rewrite list_lookup_fmap, H. cbn.
  rewrite unscaled_u16 by apply raw16_range. reflexivity.
Qed.

(** The two bytes of a field determine its value, high byte first. *)
Lemma raw16_of_bytes off b0 b1 :
  0 <= off ->
  data !! Z.to_nat off = Some b0 -> data !! Z.to_nat (off + 1) = Some b1 ->
  raw16 data off = 256 * u8 b0 + u8 b1.
Proof.
  intros H0 E0 E1. unfold raw16, byte_at.
  rewrite (nth_lookup_Some _ _ x00 _ E0), (nth_lookup_Some _ _ x00 _ E1).
  reflexivity.
Qed.

End PublishedFields.

(** * Claims about the report handler *)

Section Offsets.

Lemma offset_nonneg (table : list Z) i off :
  Forall (λ o, 0 <= o) table -> table !! i = Some off -> 0 <= off.
Proof. intros Hall H. exact (Forall_lookup_1 _ _ _ _ Hall H). Qed.

Ltac table_nonneg := repeat constructor; discriminate.

Lemma temp_offsets_nonneg : Forall (λ o, 0 <= o) temp_offsets.
Proof. table_nonneg. Qed.

Lemma power_offsets_nonneg : Forall (λ o, 0 <= o) power_offsets.
Proof. table_nonneg. Qed.

Lemma voltage_offsets_nonneg : Forall (λ o, 0 <= o) voltage_offsets.
Proof. table_nonneg. Qed.

End Offsets.

(** X13.  For a status report (identifier [0x01]) delivered in a
    buffer that holds the 226 bytes of the layout, the handler returns 0
    and leaves, for every channel, the 16-bit big-endian field found at
    the channel's offset, scaled by category: temperature raw * 10, flow
    (speed index 0) raw / 10 rounded toward zero, fan speeds (speed
    indices 1..8) raw, power raw * 10000, current raw, and voltage
    raw * 10 whenever that product fits the 16-bit field (raw <= 6553).
    Bytes [00 C8] in a temperature field give 2000, [00 32] in the flow
    field 5, [00 01] in a power field 10000, [00 05] in a voltage field
    50. *)
Theorem octo_raw_event_scaling cfg priv data size jiffies :
  array_lengths_ok priv ->
  OCTO_MIN_REPORT_LEN <= Z.of_nat (length data) ->
  ∃ priv',
    octo_raw_event cfg priv OCTO_STATUS_REPORT_ID data size jiffies = Some (0, priv') ∧
    (∀ i off, temp_offsets !! i = Some off ->
       temp_input priv' !! i = Some (raw16 data off * 10)) ∧
    speed_input priv' !! 0%nat = Some (raw16 data OCTO_FLOW_SPEED / 10) ∧
    (∀ i off, fan_speed_offsets !! i = Some off ->
       speed_input priv' !! S i = Some (raw16 data off)) ∧
    (∀ i off, power_offsets !! i = Some off ->
       power_input priv' !! i = Some (raw16 data off * 10000)) ∧
    (∀ i off, voltage_offsets !! i = Some off -> raw16 data off <= 6553 ->
       voltage_input priv' !! i = Some (raw16 data off * 10)) ∧
    (∀ i off, current_offsets !! i = Some off ->
       current_input priv' !! i = Some (raw16 data off)) ∧
    (∀ i off, temp_offsets !! i = Some off ->
       data !! Z.to_nat off = Some x00 -> data !! Z.to_nat (off + 1) = Some xc8 ->
       temp_input priv' !! i = Some 2000) ∧
    (data !! Z.to_nat OCTO_FLOW_SPEED = Some x00 ->
     data !! Z.to_nat (OCTO_FLOW_SPEED + 1) = Some x32 ->
     speed_input priv' !! 0%nat = Some 5) ∧
    (∀ i off, power_offsets !! i = Some off ->
       data !! Z.to_nat off = Some x00 -> data !! Z.to_nat (off + 1) = Some x01 ->
       power_input priv' !! i = Some 10000) ∧
    (∀ i off, voltage_offsets !! i = Some off ->
       data !! Z.to_nat off = Some x00 -> data !! Z.to_nat (off + 1) = Some x05 ->
       voltage_input priv' !! i = Some 50).
Proof.
  intros Hwf Hlen. exists (published cfg data jiffies).
  split; [apply octo_raw_event_published; assumption |].
  split; [intros; apply published_temp; assumption |].
  split; [apply published_flow |].
  split; [intros; apply published_fan_speed; assumption |].
  split; [intros; apply published_power; assumption |].
  split; [intros; apply published_voltage; assumption |].
  split; [intros; apply published_current; assumption |].
  split; [| split; [| split]].
  - intros i off Hi E0 E1.
    rewrite (published_temp _ _ _ _ _ Hi).
    rewrite (raw16_of_bytes _ _ _ _ (offset_nonneg _ _ _ temp_offsets_nonneg Hi) E0 E1).
    reflexivity.
  - intros E0 E1. rewrite published_flow.
    rewrite (raw16_of_bytes data OCTO_FLOW_SPEED _ _ ltac:(discriminate) E0 E1).
    reflexivity.
  - intros i off Hi E0 E1.
    rewrite (published_power _ _ _ _ _ Hi).
    rewrite (raw16_of_bytes _ _ _ _ (offset_nonneg _ _ _ power_offsets_nonneg Hi) E0 E1).
    reflexivity.
  - intros i off Hi E0 E1.
    pose proof (raw16_of_bytes _ _ _ _
                  (offset_nonneg _ _ _ voltage_offsets_nonneg Hi) E0 E1) as Hraw.
    rewrite (published_voltage _ _ _ _ _ Hi) by (rewrite Hraw; discriminate).
    rewrite Hraw. reflexivity.
Qed.

Lemma octo_raw_event_scaling_witness :
  array_lengths_ok octo_data_zero ∧
  OCTO_MIN_REPORT_LEN <= Z.of_nat (length sample_report) ∧
  ∃ priv',
    octo_raw_event cfg64 octo_data_zero OCTO_STATUS_REPORT_ID sample_report 226 1000
    = Some (0, priv') ∧
    temp_input priv' !! 0%nat = Some 2000 ∧
    speed_input priv' !! 0%nat = Some 5 ∧
    power_input priv' !! 0%nat = Some 10000 ∧
    voltage_input priv' !! 0%nat = Some 50 ∧
    current_input priv' !! 1%nat = Some 300.
Proof.
  assert (Hwf : array_lengths_ok octo_data_zero) by (repeat split).
  assert (Hlen : OCTO_MIN_REPORT_LEN <= Z.of_nat (length sample_report))
    by (vm_compute; discriminate).
  split; [exact Hwf |]. split; [exact Hlen |].
  destruct (octo_raw_event_scaling cfg64 octo_data_zero sample_report 226 1000 Hwf Hlen)
    as (priv' & Hrun & _ & _ & _ & _ & _ & Hcur & Htemp & Hflow & Hpow & Hvolt).
  exists priv'. split; [exact Hrun |].
  split; [apply (Htemp 0%nat OCTO_TEMP1); reflexivity |].
  split; [apply Hflow; reflexivity |].
  split; [apply (Hpow 0%nat OCTO_FAN1_POWER); reflexivity |].
  split; [apply (Hvolt 0%nat OCTO_VOLTAGE); reflexivity |].
  rewrite (Hcur 1%nat OCTO_FAN2_CURRENT); reflexivity.
Defined.

(** C1, the code at the failing input.  A status report whose
    supply-voltage field is 6554 ([19 9A]) completes with return value 0
    and leaves 4 in voltage channel 0, not the scaled value 65540: the
    product is truncated when it is stored in the [u16] field. *)
Lemma octo_raw_event_voltage_wraps :
  raw16 high_voltage_report OCTO_VOLTAGE = 6554 ∧
  ∃ priv',
    octo_raw_event cfg64 octo_data_zero OCTO_STATUS_REPORT_ID high_voltage_report 226 1000
    = Some (0, priv') ∧
    voltage_input priv' !! 0%nat = Some 4 ∧
    voltage_input priv' !! 0%nat ≠ Some (raw16 high_voltage_report OCTO_VOLTAGE * 10).
Proof.
  split; [reflexivity |].
  eexists. split; [vm_compute; reflexivity |].
  split; [reflexivity |]. vm_compute. discriminate.
Qed.

(** C2 (amended).  The handler never looks at the announced report
    length and has no error return.  For a status report, whatever [size]
    says: if the buffer holds the 226 bytes of the layout the handler
    returns 0, overwrites snapshot and identity from the buffer and stamps
    [updated] with the current tick; if the buffer is shorter the reads
    run past its end and the execution has no defined result.  No
    delivery returns anything but 0. *)
Theorem octo_raw_event_ignores_size cfg priv data size jiffies :
  array_lengths_ok priv ->
  (OCTO_MIN_REPORT_LEN <= Z.of_nat (length data) ->
   octo_raw_event cfg priv OCTO_STATUS_REPORT_ID data size jiffies
   = Some (0, published cfg data jiffies) ∧
   updated (published cfg data jiffies) = to_ulong cfg jiffies) ∧
  (Z.of_nat (length data) < OCTO_MIN_REPORT_LEN ->
   octo_raw_event cfg priv OCTO_STATUS_REPORT_ID data size jiffies = None) ∧
  (∀ ret priv',
     octo_raw_event cfg priv OCTO_STATUS_REPORT_ID data size jiffies = Some (ret, priv') ->
     ret = 0).
Proof.
  intros Hwf. split; [| split].
  - intros Hlen. split; [apply octo_raw_event_published; assumption | reflexivity].
  - intros Hshort.
    destruct (octo_raw_event cfg priv OCTO_STATUS_REPORT_ID data size jiffies)
      as [[ret priv'] |] eqn:E; [| reflexivity].
    destruct (octo_raw_event_inv _ _ _ _ _ _ _ _ Hwf E) as [_ [[Hne _] | (_ & Hlen & _)]].
    + contradiction.
    + lia.
  - intros ret priv' E.
    exact (proj1 (octo_raw_event_inv _ _ _ _ _ _ _ _ Hwf E)).
Qed.

Lemma octo_raw_event_ignores_size_witness :
  array_lengths_ok probed_at_600 ∧
  OCTO_MIN_REPORT_LEN <= Z.of_nat (length transfer_buffer) ∧
  octo_raw_event cfg64 probed_at_600 OCTO_STATUS_REPORT_ID transfer_buffer 8 1000
  = Some (0, published cfg64 transfer_buffer 1000).
Proof.
  assert (Hwf : array_lengths_ok probed_at_600) by (repeat split).
  assert (Hlen : OCTO_MIN_REPORT_LEN <= Z.of_nat (length transfer_buffer))
    by (vm_compute; discriminate).
  split; [exact Hwf |]. split; [exact Hlen |].
  exact (proj1 (proj1 (octo_raw_event_ignores_size cfg64 probed_at_600 transfer_buffer
                         8 1000 Hwf) Hlen)).
Defined.

(** C2 as stated fails: a status report announcing 8 bytes, far below the
    226 the layout needs, is not rejected; the handler returns 0 and
    replaces snapshot, identity and timestamp with what the transfer
    buffer holds. *)
Lemma octo_raw_event_short_report_published :
  8 < OCTO_MIN_REPORT_LEN ∧
  ∃ priv',
    octo_raw_event cfg64 probed_at_600 OCTO_STATUS_REPORT_ID transfer_buffer 8 1000
    = Some (0, priv') ∧
    snapshot priv' ≠ snapshot probed_at_600 ∧
    identity priv' ≠ identity probed_at_600 ∧
    updated probed_at_600 = 100 ∧ updated priv' = 1000.
Proof.
  split; [reflexivity |].
  eexists. split; [vm_compute; reflexivity |].
  repeat split; discriminate.
Qed.

(** C5.  A report whose identifier is not the status identifier makes the
    handler return 0 without touching the structure: snapshot, identity
    and timestamp are the ones it had. *)
Theorem octo_raw_event_ignores_other_reports cfg priv report_id data size jiffies :
  report_id ≠ OCTO_STATUS_REPORT_ID ->
  ∃ priv',
    octo_raw_event cfg priv report_id data size jiffies = Some (0, priv') ∧
    priv' = priv ∧
    snapshot priv' = snapshot priv ∧
    identity priv' = identity priv ∧
    updated priv' = updated priv.
Proof.
  intros Hid. exists priv.
  split; [apply octo_raw_event_other_id; exact Hid |].
  repeat split.
Qed.

Lemma octo_raw_event_ignores_other_reports_witness :
  2 ≠ OCTO_STATUS_REPORT_ID ∧
  ∃ priv',
    octo_raw_event cfg64 probed_at_600 2 sample_report 226 1000 = Some (0, priv') ∧
    priv' = probed_at_600 ∧
    snapshot priv' = snapshot probed_at_600 ∧
    identity priv' = identity probed_at_600 ∧
    updated priv' = updated probed_at_600.
Proof.
  assert (Hid : 2 ≠ OCTO_STATUS_REPORT_ID) by discriminate.
  split; [exact Hid |].
  exact (octo_raw_event_ignores_other_reports cfg64 probed_at_600 2 sample_report
           226 1000 Hid).
Defined.

(** C9.  Two deliveries of the same bytes as a status report of
    sufficient length leave the same snapshot and the same identity,
    whatever the structure held before, whenever they happen and
    whatever length is announced. *)
Theorem octo_raw_event_deterministic cfg priv1 priv2 data size1 size2 jiffies1 jiffies2 :
  array_lengths_ok priv1 -> array_lengths_ok priv2 ->
  OCTO_MIN_REPORT_LEN <= Z.of_nat (length data) ->
  ∃ r1 r2,
    octo_raw_event cfg priv1 OCTO_STATUS_REPORT_ID data size1 jiffies1 = Some (0, r1) ∧
    octo_raw_event cfg priv2 OCTO_STATUS_REPORT_ID data size2 jiffies2 = Some (0, r2) ∧
    snapshot r1 = snapshot r2 ∧
    identity r1 = identity r2.
Proof.
  intros Hwf1 Hwf2 Hlen.
  exists (published cfg data jiffies1), (published cfg data jiffies2).
  split; [apply octo_raw_event_published; assumption |].
  split; [apply octo_raw_event_published; assumption |].
  split; reflexivity.
Qed.

Lemma octo_raw_event_deterministic_witness :
  array_lengths_ok octo_data_zero ∧ array_lengths_ok (published cfg64 transfer_buffer 7) ∧
  OCTO_MIN_REPORT_LEN <= Z.of_nat (length sample_report) ∧
  ∃ r1 r2,
    octo_raw_event cfg64 octo_data_zero OCTO_STATUS_REPORT_ID sample_report 226 1000
    = Some (0, r1) ∧
    octo_raw_event cfg64 (published cfg64 transfer_buffer 7) OCTO_STATUS_REPORT_ID
      sample_report 226 2000 = Some (0, r2) ∧
    snapshot r1 = snapshot r2 ∧
    identity r1 = identity r2.
Proof.
  assert (Hwf1 : array_lengths_ok octo_data_zero) by (repeat split).
  assert (Hwf2 : array_lengths_ok (published cfg64 transfer_buffer 7)) by (repeat split).
  assert (Hlen : OCTO_MIN_REPORT_LEN <= Z.of_nat (length sample_report))
    by (vm_compute; discriminate).
  split; [exact Hwf1 |]. split; [exact Hwf2 |]. split; [exact Hlen |].
  exact (octo_raw_event_deterministic cfg64 _ _ sample_report 226 226 1000 2000
           Hwf1 Hwf2 Hlen).
Defined.

(** * Claims about the queries *)

Section Channels.

Lemma array_get_in_range {A} (arr : list A) n channel :
  length arr = n -> 0 <= channel < Z.of_nat n ->
  ∃ v, arr !! Z.to_nat channel = Some v ∧ array_get arr channel = Ok v.
Proof.
  intros Hlen Hch. unfold array_get.
  destruct (Z.ltb_spec channel 0); [lia |].
  destruct (lookup_lt_is_Some_2 arr (Z.to_nat channel)) as [v Hv]; [lia |].
  exists v. rewrite Hv. split; reflexivity.
Qed.

Lemma array_get_out_of_range {A} (arr : list A) n channel :
  length arr = n -> ¬ (0 <= channel < Z.of_nat n) -> array_get arr channel = Undef.
Proof.
  intros Hlen Hch. unfold array_get.
  destruct (Z.ltb_spec channel 0); [reflexivity |].
  rewrite lookup_ge_None_2 by lia. reflexivity.
Qed.

Lemma channel_in_range_spec type channel :
  channel_in_range type channel = true <-> 0 <= channel < channel_count type.
Proof.
  unfold channel_in_range. rewrite andb_true_iff, Z.leb_le, Z.ltb_lt. tauto.
Qed.

Lemma value_table_length priv type :
  array_lengths_ok priv -> supported type = true ->
  Z.of_nat (length (value_table priv type)) = channel_count type.
Proof.
  intros (Ht & Hs & Hp & Hv & Hc & _) Hsup.
  destruct type; try discriminate Hsup; cbn [value_table channel_count];
    rewrite ?Ht, ?Hs, ?Hp, ?Hv, ?Hc; reflexivity.
Qed.

Lemma in_range_supported type channel :
  channel_in_range type channel = true -> supported type = true.
Proof.
  rewrite channel_in_range_spec. destruct type; cbn; intros; reflexivity || lia.
Qed.

End Channels.

Section Freshness.

Variable cfg : kconfig.
Hypothesis cfg_ok : kconfig_ok cfg.

Let w := BITS_PER_LONG cfg.

Lemma half_range_large : 2147483648 <= 2 ^ (w - 1).
Proof.
  destruct cfg_ok as (Hw & _). change 2147483648 with (2 ^ 31).
  apply Z.pow_le_mono_r; unfold w; lia.
Qed.

Lemma interval_value : OCTO_STATUS_UPDATE_INTERVAL cfg = 2 * HZ cfg.
Proof.
  destruct cfg_ok as (_ & Hpos & Hsmall).
  unfold OCTO_STATUS_UPDATE_INTERVAL, int_mul. apply to_s32_small.
  change (2 ^ 31) with 2147483648 in Hsmall. lia.
Qed.

Lemma to_long_small v : 0 <= v < 2147483648 -> to_long cfg v = v.
Proof.
  intros Hv. pose proof half_range_large. destruct cfg_ok as (Hw & _).
  unfold to_long. apply swrap_small; fold w; lia.
Qed.

(** The staleness test, for a structure stamped at tick [t_pub] and a
    query at tick [t_now] less than half the counter range later. *)
Lemma stale_test t_pub t_now :
  t_pub <= t_now -> t_now - t_pub < 2 ^ (w - 1) ->
  time_after cfg (to_ulong cfg t_now)
    (to_ulong cfg (to_ulong cfg t_pub + OCTO_STATUS_UPDATE_INTERVAL cfg))
  = (OCTO_STATUS_UPDATE_INTERVAL cfg <? t_now - t_pub).
Proof.
  intros Hle Hhalf. pose proof half_range_large as Hbig.
  destruct cfg_ok as (Hw & Hpos & Hsmall).
  change (2 ^ 31) with 2147483648 in Hsmall.
  rewrite interval_value.
  unfold time_after, to_ulong, to_long. fold w.
  rewrite wrap_sub_wrap_r, wrap_sub_wrap_l.
  replace (wrap w t_pub + 2 * HZ cfg - t_now)
    with (wrap w t_pub + (2 * HZ cfg - t_now)) by lia.
  rewrite wrap_add_wrap_l.
  replace (t_pub + (2 * HZ cfg - t_now)) with (2 * HZ cfg - (t_now - t_pub)) by lia.
  rewrite swrap_wrap_diff by lia.
  destruct (Z.ltb_spec (2 * HZ cfg - (t_now - t_pub)) 0);
    destruct (Z.ltb_spec (2 * HZ cfg) (t_now - t_pub)); lia || reflexivity.
Qed.

(** Past the staleness test, a query is an array access converted to
    [long]. *)
Lemma octo_read_dispatch priv jiffies type attr channel :
  supported type = true ->
  octo_read cfg priv jiffies type attr channel =
  if time_after cfg (to_ulong cfg jiffies)
       (to_ulong cfg (updated priv + OCTO_STATUS_UPDATE_INTERVAL cfg))
  then Err (- ENODATA)
  else store_val cfg (array_get (value_table priv type) channel).
Proof.
  intros Hsup. unfold octo_read.
  destruct type; try discriminate Hsup; reflexivity.
Qed.

Lemma inv_value_small priv type v i :
  octo_data_inv cfg priv -> value_table priv type !! i = Some v ->
  0 <= v < 2147483648.
Proof.
  intros (_ & Ht & Hs & Hp & Hv & Hc & _) Hi.
  destruct type; cbn [value_table] in Hi;
    try (rewrite lookup_nil in Hi; discriminate Hi);
    match type of Hi with
    | ?arr !! _ = _ =>
        match goal with
        | Hall : Forall _ arr |- _ =>
            pose proof (Forall_lookup_1 _ _ _ _ Hall Hi) as Hr; cbv beta in Hr; lia
        end
    end.
Qed.

(** A fresh in-range query returns the array element unchanged. *)
Lemma octo_read_value priv type channel :
  octo_data_inv cfg priv -> channel_in_range type channel = true ->
  ∃ v, value_table priv type !! Z.to_nat channel = Some v ∧
       store_val cfg (array_get (value_table priv type) channel) = Ok v.
Proof.
  intros Hinv Hch.
  pose proof (in_range_supported _ _ Hch) as Hsup.
  apply channel_in_range_spec in Hch.
  destruct (array_get_in_range (value_table priv type)
              (length (value_table priv type)) channel eq_refl) as (v & Hv & Hget).
  { rewrite (value_table_length _ _ (proj1 Hinv) Hsup). exact Hch. }
  exists v. split; [exact Hv |].
  rewrite Hget. cbn [store_val]. f_equal.
  apply to_long_small. eapply inv_value_small; eassumption.
Qed.

End Freshness.

Section SampleFacts.

Lemma cfg64_ok : kconfig_ok cfg64.
Proof.
  split; [| split]; [apply Z.leb_le | apply Z.ltb_lt | apply Z.ltb_lt]; reflexivity.
Qed.

Lemma cfg32_ok : kconfig_ok cfg32.
Proof.
  split; [| split]; [apply Z.leb_le | apply Z.ltb_lt | apply Z.ltb_lt]; reflexivity.
Qed.

Lemma probed_at_600_reachable : reachable cfg64 probed_at_600.
Proof. apply (reach_probe cfg64 env_ok 600). reflexivity. Qed.

Lemma sample_published_reachable :
  reachable cfg64 (published cfg64 sample_report 1000).
Proof.
  apply (reach_event cfg64 probed_at_600 OCTO_STATUS_REPORT_ID sample_report 226
           1000 0).
  - exact probed_at_600_reachable.
  - vm_compute. reflexivity.
Qed.

End SampleFacts.

(** C4 (amended).  For every structure the driver can hold and every
    in-range channel, a query made [t_now - t_pub] ticks after the last
    publish (less than half the range of the tick counter) succeeds with
    the stored value exactly when [t_now - t_pub <= STALE_INTERVAL],
    where [STALE_INTERVAL] is [OCTO_STATUS_UPDATE_INTERVAL = 2 * HZ], and
    fails with [-ENODATA] otherwise.  The tick at which exactly the
    interval has elapsed still counts as fresh. *)
Theorem octo_read_fresh_within_interval cfg priv type attr channel :
  kconfig_ok cfg ->
  reachable cfg priv ->
  channel_in_range type channel = true ->
  ∃ v,
    value_table priv type !! Z.to_nat channel = Some v ∧
    ∀ t_pub t_now,
      updated priv = to_ulong cfg t_pub ->
      t_pub <= t_now ->
      t_now - t_pub < 2 ^ (BITS_PER_LONG cfg - 1) ->
      octo_read cfg priv t_now type attr channel =
      if t_now - t_pub <=? OCTO_STATUS_UPDATE_INTERVAL cfg
      then Ok v else Err (- ENODATA).
Proof.
  intros Hcfg Hreach Hch.
  pose proof (reachable_inv cfg Hcfg priv Hreach) as Hinv.
  destruct (octo_read_value cfg Hcfg priv type channel Hinv Hch) as (v & Hv & Hval).
  exists v. split; [exact Hv |].
  intros t_pub t_now Hupd Hle Hhalf.
  rewrite (octo_read_dispatch cfg) by (eapply in_range_supported; eassumption).
  rewrite Hupd, (stale_test cfg Hcfg) by assumption.
  destruct (Z.ltb_spec (OCTO_STATUS_UPDATE_INTERVAL cfg) (t_now - t_pub));
    destruct (Z.leb_spec (t_now - t_pub) (OCTO_STATUS_UPDATE_INTERVAL cfg));
    try lia; [reflexivity | exact Hval].
Qed.

Lemma octo_read_fresh_within_interval_witness :
  kconfig_ok cfg64 ∧
  reachable cfg64 (published cfg64 sample_report 1000) ∧
  channel_in_range hwmon_temp 0 = true ∧
  ∃ v,
    value_table (published cfg64 sample_report 1000) hwmon_temp !! Z.to_nat 0 = Some v ∧
    ∀ t_pub t_now,
      updated (published cfg64 sample_report 1000) = to_ulong cfg64 t_pub ->
      t_pub <= t_now ->
      t_now - t_pub < 2 ^ (BITS_PER_LONG cfg64 - 1) ->
      octo_read cfg64 (published cfg64 sample_report 1000) t_now hwmon_temp 0 0 =
      if t_now - t_pub <=? OCTO_STATUS_UPDATE_INTERVAL cfg64
      then Ok v else Err (- ENODATA).
Proof.
  split; [exact cfg64_ok |]. split; [exact sample_published_reachable |].
  split; [reflexivity |].
  exact (octo_read_fresh_within_interval cfg64 (published cfg64 sample_report 1000)
           hwmon_temp 0 0 cfg64_ok sample_published_reachable eq_refl).
Defined.

(** C4 as stated fails at the boundary: 500 ticks after a publish at tick
    1000, with [STALE_INTERVAL = 500], [now - last_publish] is not below
    the interval, yet the query succeeds. *)
Lemma octo_read_fresh_at_interval_end :
  reachable cfg64 (published cfg64 sample_report 1000) ∧
  updated (published cfg64 sample_report 1000) = 1000 ∧
  OCTO_STATUS_UPDATE_INTERVAL cfg64 = 500 ∧
  ¬ (1500 - 1000 < OCTO_STATUS_UPDATE_INTERVAL cfg64) ∧
  octo_read cfg64 (published cfg64 sample_report 1000) 1500 hwmon_temp 0 0 = Ok 2000.
Proof.
  split; [exact sample_published_reachable |].
  split; [reflexivity |]. split; [reflexivity |].
  split; [| vm_compute; reflexivity].
  intros H. vm_compute in H. discriminate H.
Qed.

(** After a publish at tick [jiffies] every in-range query at that tick
    succeeds. *)
Lemma octo_read_after_publish cfg priv data size jiffies priv' type attr channel :
  kconfig_ok cfg -> array_lengths_ok priv ->
  octo_raw_event cfg priv OCTO_STATUS_REPORT_ID data size jiffies = Some (0, priv') ->
  channel_in_range type channel = true ->
  ∃ v, value_table priv' type !! Z.to_nat channel = Some v ∧
       octo_read cfg priv' jiffies type attr channel = Ok v.
Proof.
  intros Hcfg Hwf Hev Hch.
  destruct (octo_raw_event_inv _ _ _ _ _ _ _ _ Hwf Hev) as [_ [[Hne _] | (_ & _ & ->)]];
    [contradiction |].
  destruct (octo_read_value cfg Hcfg _ type channel (published_inv cfg Hcfg data jiffies) Hch)
    as (v & Hv & Hval).
  exists v. split; [exact Hv |].
  rewrite (octo_read_dispatch cfg) by (eapply in_range_supported; eassumption).
  cbn [published updated].
  rewrite (stale_test cfg Hcfg jiffies jiffies); [| lia |].
  - rewrite Z.sub_diag.
    destruct (Z.ltb_spec (OCTO_STATUS_UPDATE_INTERVAL cfg) 0); [| exact Hval].
    rewrite (interval_value cfg Hcfg) in *. destruct Hcfg as (_ & ? & _). lia.
  - rewrite Z.sub_diag. apply Z.pow_pos_nonneg; destruct Hcfg; lia.
Qed.

Section InitialState.

Variable cfg : kconfig.
Hypothesis cfg_ok : kconfig_ok cfg.

Lemma zero_tables type :
  Forall (λ v, v = 0) (value_table (with_updated octo_data_zero 0) type).
Proof. destruct type; cbn; repeat constructor. Qed.

Lemma probed_value env jiffies priv type i v :
  octo_probe cfg env jiffies = (0, Some priv) ->
  value_table priv type !! i = Some v -> v = 0.
Proof.
  intros Hp Hi. rewrite (probe_state _ _ _ _ Hp) in Hi.
  exact (Forall_lookup_1 _ _ _ _ (zero_tables type) Hi).
Qed.

Lemma to_ulong_sub_l a b : to_ulong cfg (to_ulong cfg a - b) = to_ulong cfg (a - b).
Proof. unfold to_ulong. apply wrap_sub_wrap_l. Qed.

(** The staleness test on the structure a probe at tick [jiffies]
    installs, for a query [d] ticks later. *)
Lemma probed_stale_test env jiffies priv d :
  octo_probe cfg env jiffies = (0, Some priv) ->
  0 <= d -> d + OCTO_STATUS_UPDATE_INTERVAL cfg < 2 ^ (BITS_PER_LONG cfg - 1) ->
  time_after cfg (to_ulong cfg (jiffies + d))
    (to_ulong cfg (updated priv + OCTO_STATUS_UPDATE_INTERVAL cfg))
  = (0 <? d).
Proof.
  intros Hp Hd Hhalf. rewrite (probe_state _ _ _ _ Hp).
  cbn [with_updated updated]. rewrite to_ulong_sub_l.
  pose proof (interval_value cfg cfg_ok) as HI. destruct cfg_ok as (_ & Hpos & _).
  rewrite (stale_test cfg cfg_ok) by lia.
  destruct (Z.ltb_spec (OCTO_STATUS_UPDATE_INTERVAL cfg)
              (jiffies + d - (jiffies - OCTO_STATUS_UPDATE_INTERVAL cfg)));
    destruct (Z.ltb_spec 0 d); lia || reflexivity.
Qed.

(** From the tick after the probe on, for less than half the counter
    range, queries on the initial structure fail with [-ENODATA]. *)
Lemma octo_read_stale_after_probe_tick env jiffies priv d type attr channel :
  octo_probe cfg env jiffies = (0, Some priv) ->
  0 < d -> d + OCTO_STATUS_UPDATE_INTERVAL cfg < 2 ^ (BITS_PER_LONG cfg - 1) ->
  octo_read cfg priv (jiffies + d) type attr channel = Err (- ENODATA).
Proof.
  intros Hp Hd Hhalf. unfold octo_read.
  rewrite (probed_stale_test env jiffies priv d Hp) by lia.
  destruct (Z.ltb_spec 0 d); [reflexivity | lia].
Qed.

End InitialState.

(** On a 32-bit build the signed difference of the staleness test wraps:
    [2 ^ 31 + 1] ticks after a probe at tick 5000 with no report in
    between, a query is answered again. *)
Lemma octo_read_fresh_after_half_range :
  octo_probe cfg32 env_ok 5000 = (0, Some (with_updated octo_data_zero 3000)) ∧
  octo_read cfg32 (with_updated octo_data_zero 3000) (5000 + 2 ^ 31) hwmon_temp 0 0
  = Err (- ENODATA) ∧
  octo_read cfg32 (with_updated octo_data_zero 3000) (5000 + 2 ^ 31 + 1) hwmon_temp 0 0
  = Ok 0.
Proof. repeat split. Qed.

(** C6, the code at the failing input.  A query that arrives in the very
    tick in which [octo_probe] initialised the structure passes the
    staleness test and returns the zero the allocator left in the array.
    ([octo_read_stale_after_probe_tick] covers the ticks that follow.) *)
Theorem octo_read_at_probe_tick cfg env jiffies priv type attr channel :
  kconfig_ok cfg ->
  octo_probe cfg env jiffies = (0, Some priv) ->
  channel_in_range type channel = true ->
  octo_read cfg priv jiffies type attr channel = Ok 0.
Proof.
  intros Hcfg Hp Hch.
  destruct (octo_read_value cfg Hcfg priv type channel
              (probe_inv cfg Hcfg env jiffies priv Hp) Hch) as (v & Hv & Hval).
  rewrite (probed_value cfg env jiffies priv type _ v Hp Hv) in Hval.
  rewrite (octo_read_dispatch cfg) by (eapply in_range_supported; eassumption).
  replace jiffies with (jiffies + 0) at 1 by lia.
  rewrite (probed_stale_test cfg Hcfg env jiffies priv 0 Hp); [exact Hval | lia |].
  rewrite (interval_value cfg Hcfg).
  pose proof (half_range_large cfg Hcfg) as Hbig.
  destruct Hcfg as (_ & _ & Hsmall). change (2 ^ 31) with 2147483648 in Hsmall. lia.
Qed.

Lemma octo_read_at_probe_tick_witness :
  kconfig_ok cfg64 ∧
  octo_probe cfg64 env_ok 600 = (0, Some probed_at_600) ∧
  channel_in_range hwmon_fan 8 = true ∧
  octo_read cfg64 probed_at_600 600 hwmon_fan 0 8 = Ok 0.
Proof.
  split; [exact cfg64_ok |]. split; [reflexivity |]. split; [reflexivity |].
  exact (octo_read_at_probe_tick cfg64 env_ok 600 probed_at_600 hwmon_fan 0 8
           cfg64_ok eq_refl eq_refl).
Defined.

Section Dispatch.

Lemma label_table_length type :
  supported type = true ->
  Z.of_nat (length (label_table type)) = channel_count type.
Proof. destruct type; try discriminate; reflexivity. Qed.

Lemma octo_read_string_dispatch priv type attr channel :
  supported type = true ->
  octo_read_string priv type attr channel = array_get (label_table type) channel.
Proof. destruct type; try discriminate; reflexivity. Qed.

Lemma channel_out_of_range_spec type channel :
  channel_in_range type channel = false <-> ¬ (0 <= channel < channel_count type).
Proof.
  rewrite <- channel_in_range_spec. destruct (channel_in_range type channel); split;
    congruence || tauto.
Qed.

(** The capability table registers exactly the in-range channels. *)
Lemma advertised_iff_in_range type channel :
  advertised type channel <-> channel_in_range type channel = true.
Proof.
  rewrite channel_in_range_spec. unfold advertised, octo_info. split.
  - intros (cfgs & Hin & Hch).
    rewrite !elem_of_cons, elem_of_nil in Hin.
    destruct Hin as [E | [E | [E | [E | [E | []]]]]];
      inversion E; subst; cbn in Hch |- *; lia.
  - intros Hch.
    destruct type; cbn [channel_count] in Hch; try lia;
      eexists; (split; [apply list_elem_of_In; cbn; eauto 10 | cbn; lia]).
Qed.

End Dispatch.

(** C7 (amended).  The query callbacks do not validate the channel index
    and have no InvalidChannel error.  The capability table [octo_info]
    registers exactly the channels temperature 0..3, speed 0..8, power
    0..7, voltage 0..8 and current 0..7.  The only argument the
    callbacks reject is an unsupported sensor category: [octo_read_string]
    answers [-EOPNOTSUPP] for it, and [octo_read] answers [-EOPNOTSUPP]
    once past its staleness test; on a stale structure [octo_read]
    answers [-ENODATA] whatever the category and the index.  For a
    supported category and an index outside its range,
    [octo_read_string], and [octo_read] once past its staleness test,
    index beyond the array: the execution has no defined result. *)
Theorem query_channel_index_unchecked cfg priv jiffies type attr channel :
  array_lengths_ok priv ->
  (advertised type channel <-> channel_in_range type channel = true) ∧
  (supported type = false ->
   octo_read_string priv type attr channel = Err (- EOPNOTSUPP)) ∧
  (supported type = false ->
   octo_read cfg priv jiffies type attr channel =
   if time_after cfg (to_ulong cfg jiffies)
        (to_ulong cfg (updated priv + OCTO_STATUS_UPDATE_INTERVAL cfg))
   then Err (- ENODATA) else Err (- EOPNOTSUPP)) ∧
  (time_after cfg (to_ulong cfg jiffies)
     (to_ulong cfg (updated priv + OCTO_STATUS_UPDATE_INTERVAL cfg)) = true ->
   octo_read cfg priv jiffies type attr channel = Err (- ENODATA)) ∧
  (supported type = true -> channel_in_range type channel = false ->
   octo_read_string priv type attr channel = Undef ∧
   octo_read cfg priv jiffies type attr channel =
   if time_after cfg (to_ulong cfg jiffies)
        (to_ulong cfg (updated priv + OCTO_STATUS_UPDATE_INTERVAL cfg))
   then Err (- ENODATA) else Undef).
Proof.
  intros Hwf. split; [apply advertised_iff_in_range |].
  split; [| split; [| split]].
  - intros Hsup. destruct type; try discriminate Hsup; reflexivity.
  - intros Hsup. unfold octo_read.
    destruct type; try discriminate Hsup; reflexivity.
  - intros Hstale. unfold octo_read. rewrite Hstale. reflexivity.
  - intros Hsup Hch. apply channel_out_of_range_spec in Hch. split.
    + rewrite octo_read_string_dispatch by exact Hsup.
      apply (array_get_out_of_range _ (length (label_table type))); [reflexivity |].
      rewrite label_table_length by exact Hsup. exact Hch.
    + rewrite octo_read_dispatch by exact Hsup.
      rewrite (array_get_out_of_range (value_table priv type)
                 (length (value_table priv type))); [reflexivity | reflexivity |].
      rewrite value_table_length by assumption. exact Hch.
Qed.

Lemma query_channel_index_unchecked_witness :
  array_lengths_ok (published cfg64 sample_report 1000) ∧
  supported hwmon_temp = true ∧ channel_in_range hwmon_temp 4 = false ∧
  supported hwmon_pwm = false ∧
  octo_read_string (published cfg64 sample_report 1000) hwmon_temp 0 4 = Undef ∧
  octo_read cfg64 (published cfg64 sample_report 1000) 1000 hwmon_temp 0 4 =
  (if time_after cfg64 (to_ulong cfg64 1000)
        (to_ulong cfg64 (updated (published cfg64 sample_report 1000)
                         + OCTO_STATUS_UPDATE_INTERVAL cfg64))
   then Err (- ENODATA) else Undef) ∧
  octo_read_string (published cfg64 sample_report 1000) hwmon_pwm 0 0
  = Err (- EOPNOTSUPP) ∧
  octo_read cfg64 (published cfg64 sample_report 1000) 1000 hwmon_pwm 0 0
  = Err (- EOPNOTSUPP) ∧
  octo_read cfg64 (published cfg64 sample_report 1000) 1501 hwmon_pwm 0 0
  = Err (- ENODATA).
Proof.
  assert (Hwf : array_lengths_ok (published cfg64 sample_report 1000))
    by (repeat split).
  split; [exact Hwf |]. split; [reflexivity |]. split; [reflexivity |].
  split; [reflexivity |].
  destruct (query_channel_index_unchecked cfg64 (published cfg64 sample_report 1000)
              1000 hwmon_temp 0 4 Hwf) as (_ & _ & _ & _ & Hout).
  destruct (Hout eq_refl eq_refl) as [Hstr Hval].
  split; [exact Hstr |]. split; [exact Hval |].
  destruct (query_channel_index_unchecked cfg64 (published cfg64 sample_report 1000)
              1000 hwmon_pwm 0 0 Hwf) as (_ & Hstr' & Hval' & _ & _).
  split; [exact (Hstr' eq_refl) |].
  split; [exact (Hval' eq_refl) |].
  destruct (query_channel_index_unchecked cfg64 (published cfg64 sample_report 1000)
              1501 hwmon_pwm 0 0 Hwf) as (_ & _ & _ & Hstale & _).
  exact (Hstale eq_refl).
Defined.

(** C7 as stated fails: temperature index 4 and current index -1 are out
    of range, yet neither callback returns an error for them; on a fresh
    snapshot both run into the out-of-bounds access. *)
Lemma query_out_of_range_not_rejected :
  channel_in_range hwmon_temp 4 = false ∧
  channel_in_range hwmon_curr (-1) = false ∧
  octo_read_string (published cfg64 sample_report 1000) hwmon_temp 0 4 = Undef ∧
  octo_read cfg64 (published cfg64 sample_report 1000) 1000 hwmon_temp 0 4 = Undef ∧
  octo_read_string (published cfg64 sample_report 1000) hwmon_curr 0 (-1) = Undef ∧
  octo_read cfg64 (published cfg64 sample_report 1000) 1000 hwmon_curr 0 (-1) = Undef ∧
  (∀ e, (Undef : result Z) ≠ Err e) ∧ (∀ e, (Undef : result string) ≠ Err e).
Proof.
  repeat split; try reflexivity; intros e H; discriminate H.
Qed.

Section Identity.

Lemma published_identity cfg data jiffies :
  identity (published cfg data jiffies) =
  ([raw16 data OCTO_SERIAL_FIRST_PART; raw16 data OCTO_SERIAL_SECOND_PART],
   raw16 data OCTO_FIRMWARE_VERSION, raw32 data OCTO_POWER_CYCLES).
Proof.
  unfold identity, published; cbn [serial_number firmware_version power_cycles].
  pose proof (raw16_range data OCTO_SERIAL_FIRST_PART).
  pose proof (raw16_range data OCTO_SERIAL_SECOND_PART).
  rewrite !to_u32_small by lia.
  rewrite (unscaled_u16 _ (raw16_range data OCTO_FIRMWARE_VERSION)).
  rewrite (to_u32_small (raw32 data OCTO_POWER_CYCLES)) by apply raw32_range.
  reflexivity.
Qed.

(** The debugfs files are functions of the identity fields alone. *)
Lemma show_of_identity priv a b fw pc :
  identity priv = ([a; b], fw, pc) ->
  serial_number_show priv = Ok (fmt_05u a +:+ "-" +:+ fmt_05u b +:+ newline) ∧
  firmware_version_show priv = Ok (fmt_u fw +:+ newline) ∧
  power_cycles_show priv = Ok (fmt_u pc +:+ newline).
Proof.
  unfold identity, serial_number_show, firmware_version_show, power_cycles_show.
  intros H. injection H as Hs Hf Hp. rewrite Hs, Hf, Hp. repeat split.
Qed.

End Identity.

(** C8.  For every category and in-range channel and every structure,
    [octo_read_string] succeeds with the channel's entry of the label
    table; the debugfs files succeed and print the identity fields the
    last status report left (serial as two zero-padded 5-digit parts,
    firmware version, power-cycle count), which are all zero after the
    probe; they succeed on every structure; none of them reads the
    timestamp, so the answers are the same whatever [updated] holds. *)
Theorem labels_and_identity_ignore_freshness :
  (∀ priv type attr channel,
     channel_in_range type channel = true ->
     ∃ label, label_table type !! Z.to_nat channel = Some label ∧
              octo_read_string priv type attr channel = Ok label) ∧
  (∀ cfg env jiffies priv,
     octo_probe cfg env jiffies = (0, Some priv) ->
     identity priv = ([0; 0], 0, 0) ∧
     serial_number_show priv = Ok ("00000-00000" +:+ newline) ∧
     firmware_version_show priv = Ok ("0" +:+ newline) ∧
     power_cycles_show priv = Ok ("0" +:+ newline)) ∧
  (∀ cfg priv data size jiffies ret priv',
     array_lengths_ok priv ->
     octo_raw_event cfg priv OCTO_STATUS_REPORT_ID data size jiffies = Some (ret, priv') ->
     serial_number_show priv' =
       Ok (fmt_05u (raw16 data OCTO_SERIAL_FIRST_PART) +:+ "-"
           +:+ fmt_05u (raw16 data OCTO_SERIAL_SECOND_PART) +:+ newline) ∧
     firmware_version_show priv' = Ok (fmt_u (raw16 data OCTO_FIRMWARE_VERSION) +:+ newline) ∧
     power_cycles_show priv' = Ok (fmt_u (raw32 data OCTO_POWER_CYCLES) +:+ newline)) ∧
  (∀ priv,
     array_lengths_ok priv ->
     ∃ a b, serial_number priv = [a; b] ∧
       serial_number_show priv = Ok (fmt_05u a +:+ "-" +:+ fmt_05u b +:+ newline) ∧
       firmware_version_show priv = Ok (fmt_u (firmware_version priv) +:+ newline) ∧
       power_cycles_show priv = Ok (fmt_u (power_cycles priv) +:+ newline)) ∧
  (∀ priv stamp type attr channel,
     octo_read_string (with_updated priv stamp) type attr channel
     = octo_read_string priv type attr channel ∧
     serial_number_show (with_updated priv stamp) = serial_number_show priv ∧
     firmware_version_show (with_updated priv stamp) = firmware_version_show priv ∧
     power_cycles_show (with_updated priv stamp) = power_cycles_show priv).
Proof.
  split; [| split; [| split; [| split]]].
  - intros priv type attr channel Hch.
    pose proof (in_range_supported _ _ Hch) as Hsup.
    apply channel_in_range_spec in Hch.
    rewrite octo_read_string_dispatch by exact Hsup.
    apply (array_get_in_range _ (length (label_table type))); [reflexivity |].
    rewrite label_table_length by exact Hsup. exact Hch.
  - intros cfg env jiffies priv Hp.
    assert (Hid : identity priv = ([0; 0], 0, 0))
      by (rewrite (probe_state _ _ _ _ Hp); reflexivity).
    split; [exact Hid |]. exact (show_of_identity _ _ _ _ _ Hid).
  - intros cfg priv data size jiffies ret priv' Hwf Hev.
    destruct (octo_raw_event_inv _ _ _ _ _ _ _ _ Hwf Hev) as [_ [[Hne _] | (_ & _ & ->)]];
      [contradiction |].
    apply show_of_identity, published_identity.
  - intros priv (_ & _ & _ & _ & _ & Hn).
    destruct (serial_number priv) as [| a [| b [| c sn]]] eqn:Hs; try discriminate Hn.
    exists a, b. split; [reflexivity |].
    apply show_of_identity. unfold identity. rewrite Hs. reflexivity.
  - intros priv stamp type attr channel. repeat split.
Qed.

Lemma labels_and_identity_ignore_freshness_witness :
  channel_in_range hwmon_in 0 = true ∧
  octo_read_string probed_at_600 hwmon_in 0 0 = Ok "VCC" ∧
  serial_number_show probed_at_600 = Ok ("00000-00000" +:+ newline) ∧
  serial_number_show (published cfg64 sample_report 1000)
  = Ok ("12345-00678" +:+ newline) ∧
  firmware_version_show (published cfg64 sample_report 1000) = Ok ("1019" +:+ newline).
Proof.
  destruct labels_and_identity_ignore_freshness as (Hlabel & Hzero & Hlast & _ & _).
  split; [reflexivity |].
  split.
  { destruct (Hlabel probed_at_600 hwmon_in 0 0 eq_refl) as (label & Hl & ->).
    vm_compute in Hl. injection Hl as <-. reflexivity. }
  split.
  { exact (proj1 (proj2 (Hzero cfg64 env_ok 600 probed_at_600 eq_refl))). }
  assert (Hwf : array_lengths_ok probed_at_600) by (repeat split).
  assert (Hev : octo_raw_event cfg64 probed_at_600 OCTO_STATUS_REPORT_ID sample_report
                  226 1000 = Some (0, published cfg64 sample_report 1000))
    by (vm_compute; reflexivity).
  destruct (Hlast cfg64 probed_at_600 sample_report 226 1000 0 _ Hwf Hev) as (Hs & Hf & _).
  split; [rewrite Hs | rewrite Hf]; reflexivity.
Defined.

(** C10.  In the current category the labels of channels 4, 5, 6 and 7
    are those of channels 0, 1, 2 and 3, ["Fan1 current"] to
    ["Fan4 current"]: distinct in-range current channels share a label. *)
Theorem current_labels_repeat priv attr :
  octo_read_string priv hwmon_curr attr 0 = Ok "Fan1 current" ∧
  octo_read_string priv hwmon_curr attr 1 = Ok "Fan2 current" ∧
  octo_read_string priv hwmon_curr attr 2 = Ok "Fan3 current" ∧
  octo_read_string priv hwmon_curr attr 3 = Ok "Fan4 current" ∧
  octo_read_string priv hwmon_curr attr 4 = octo_read_string priv hwmon_curr attr 0 ∧
  octo_read_string priv hwmon_curr attr 5 = octo_read_string priv hwmon_curr attr 1 ∧
  octo_read_string priv hwmon_curr attr 6 = octo_read_string priv hwmon_curr attr 2 ∧
  octo_read_string priv hwmon_curr attr 7 = octo_read_string priv hwmon_curr attr 3 ∧
  ∃ c1 c2, c1 ≠ c2 ∧
    channel_in_range hwmon_curr c1 = true ∧ channel_in_range hwmon_curr c2 = true ∧
    octo_read_string priv hwmon_curr attr c1 = octo_read_string priv hwmon_curr attr c2.
Proof.
  repeat (split; [reflexivity |]).
  exists 0, 4. repeat split. discriminate.
Qed.

(** * Further properties of the driver *)

Create HintDb octo_fields discriminated.
#[global] Hint Unfold OCTO_SERIAL_FIRST_PART OCTO_SERIAL_SECOND_PART
  OCTO_FIRMWARE_VERSION OCTO_POWER_CYCLES OCTO_MIN_REPORT_LEN : octo_fields.

(** ** Channels of a published report *)

Section Registry.

Variables (cfg : kconfig) (data : list byte) (jiffies : Z).

Lemma offset_table_length type :
  Z.of_nat (length (offset_table type)) = channel_count type.
Proof. destruct type; reflexivity. Qed.

Lemma offset_table_in_range type channel :
  channel_in_range type channel = true ->
  ∃ off, offset_table type !! Z.to_nat channel = Some off.
Proof.
  intros Hch. apply channel_in_range_spec in Hch.
  apply lookup_lt_is_Some_2. pose proof (offset_table_length type). lia.
Qed.

(** What a report leaves in each channel, by category and index. *)
Lemma published_channel type channel off :
  channel_in_range type channel = true ->
  offset_table type !! Z.to_nat channel = Some off ->
  value_table (published cfg data jiffies) type !! Z.to_nat channel
  = Some (channel_scale type channel (raw16 data off)).
Proof.
  intros Hch Hoff. apply channel_in_range_spec in Hch.
  destruct type; cbn [channel_count] in Hch; try lia;
    cbn [offset_table value_table channel_scale] in *.
  - apply published_temp. exact Hoff.
  - apply published_voltage_mod. exact Hoff.
  - apply published_current. exact Hoff.
  - apply published_power. exact Hoff.
  - destruct (Z.eqb_spec channel 0) as [-> | Hne].
    + cbn in Hoff. injection Hoff as <-. apply published_flow.
    + replace (Z.to_nat channel) with (S (Z.to_nat (channel - 1))) in * by lia.
      unfold speed_offsets in Hoff. rewrite lookup_cons in Hoff.
      apply published_fan_speed. exact Hoff.
Qed.

Lemma channel_scale_range type channel raw :
  channel_in_range type channel = true -> 0 <= raw <= 65535 ->
  0 <= channel_scale type channel raw <= channel_max type channel.
Proof.
  intros Hch Hraw. apply channel_in_range_spec in Hch.
  destruct type; cbn [channel_count] in Hch; try lia;
    cbn [channel_scale channel_max]; try lia.
  - pose proof (Z.mod_pos_bound (raw * 10) 65536). lia.
  - destruct (channel =? 0); [| lia].
    split; [apply Z.div_pos; lia |].
    apply Z.lt_succ_r. apply Z.div_lt_upper_bound; lia.
Qed.

End Registry.

(** ** The structures the driver can hold *)

Section ReachableStates.

Variable cfg : kconfig.

(** The structure a probe at tick [jiffies] installs. *)
Let probed (jiffies : Z) : octo_data :=
  with_updated octo_data_zero
    (to_ulong cfg (to_ulong cfg jiffies - OCTO_STATUS_UPDATE_INTERVAL cfg)).

Lemma array_get_Ok_inv {A} (arr : list A) channel x :
  array_get arr channel = Ok x -> 0 <= channel ∧ arr !! Z.to_nat channel = Some x.
Proof.
  unfold array_get. destruct (Z.ltb_spec channel 0); [discriminate |].
  destruct (arr !! Z.to_nat channel); [| discriminate].
  intros [= ->]. split; [assumption | reflexivity].
Qed.

Lemma reachable_shape_1 priv :
  reachable cfg priv ->
  (∃ jiffies, priv = probed jiffies) ∨
  (∃ data jiffies,
     OCTO_MIN_REPORT_LEN <= Z.of_nat (length data) ∧ priv = published cfg data jiffies).
Proof.
  induction 1 as [env j priv Hp | priv id data size j ret priv' Hr IH Hev].
  - left. exists j. apply (probe_state cfg env j priv Hp).
  - assert (Hwf : array_lengths_ok priv).
    { destruct IH as [[j0 ->] | (d0 & j0 & _ & ->)]; repeat split. }
    destruct (octo_raw_event_inv _ _ _ _ _ _ _ _ Hwf Hev)
      as [_ [[_ ->] | (_ & Hlen & ->)]].
    + exact IH.
    + right. exists data, j. split; [exact Hlen | reflexivity].
Qed.

Lemma probed_reachable jiffies : reachable cfg (probed jiffies).
Proof. apply (reach_probe cfg env_ok jiffies). reflexivity. Qed.

Lemma published_reachable data jiffies :
  OCTO_MIN_REPORT_LEN <= Z.of_nat (length data) ->
  reachable cfg (published cfg data jiffies).
Proof.
  intros Hlen.
  apply (reach_event cfg (probed 0) OCTO_STATUS_REPORT_ID data 0 jiffies 0).
  - apply probed_reachable.
  - apply octo_raw_event_published; [repeat split | exact Hlen].
Qed.

Lemma reachable_lengths priv : reachable cfg priv -> array_lengths_ok priv.
Proof.
  intros Hr.
  destruct (reachable_shape_1 priv Hr) as [[j ->] | (d & j & _ & ->)]; repeat split.
Qed.

(** Every stored channel value lies within the bound of its channel. *)
Lemma reachable_value priv type channel x :
  reachable cfg priv ->
  channel_in_range type channel = true ->
  value_table priv type !! Z.to_nat channel = Some x ->
  0 <= x <= channel_max type channel.
Proof.
  intros Hr Hch Hx.
  destruct (reachable_shape_1 priv Hr) as [[j ->] | (d & j & _ & ->)].
  - pose proof (Forall_lookup_1 _ _ _ _ (zero_tables type) Hx) as Hz.
    cbv beta in Hz. subst x.
    pose proof (channel_scale_range type channel 0 Hch ltac:(lia)). lia.
  - destruct (offset_table_in_range type channel Hch) as [off Hoff].
    rewrite (published_channel cfg d j type channel off Hch Hoff) in Hx.
    injection Hx as <-.
    apply channel_scale_range; [exact Hch | apply raw16_range].
Qed.

Lemma channel_max_small type channel : channel_max type channel < 2147483648.
Proof. destruct type; cbn; try destruct (channel =? 0); lia. Qed.

End ReachableStates.

(** A structure is reachable exactly when it is the one some probe
    installs or the one published from some buffer of full length. *)
Theorem reachable_iff_probed_or_published cfg priv :
  reachable cfg priv <->
  (∃ jiffies,
     priv = with_updated octo_data_zero
              (to_ulong cfg (to_ulong cfg jiffies - OCTO_STATUS_UPDATE_INTERVAL cfg))) ∨
  (∃ data jiffies,
     OCTO_MIN_REPORT_LEN <= Z.of_nat (length data) ∧ priv = published cfg data jiffies).
Proof.
  split.
  - apply reachable_shape_1.
  - intros [[j ->] | (data & j & Hlen & ->)].
    + apply probed_reachable.
    + apply published_reachable. exact Hlen.
Qed.

(** X1.  Last status report wins.  When a sequence of deliveries
    completes, starting from any structure, the structure at the end is
    exactly what the last delivery carrying the status identifier
    publishes from its own buffer and tick, and that buffer held the
    whole layout; nothing of the earlier reports or of the starting
    structure remains.  If no delivery carried the status identifier
    the structure is unchanged. *)
Theorem octo_raw_events_last_status cfg priv ds priv' :
  array_lengths_ok priv ->
  octo_raw_events cfg priv ds = Some priv' ->
  match last_status ds with
  | Some d =>
      OCTO_MIN_REPORT_LEN <= Z.of_nat (length (d_data d)) ∧
      priv' = published cfg (d_data d) (d_jiffies d)
  | None => priv' = priv
  end.
Proof.
  revert priv. induction ds as [| d rest IH]; intros priv Hwf Hrun.
  - cbn in Hrun |- *. congruence.
  - cbn [octo_raw_events] in Hrun.
    destruct (octo_raw_event cfg priv (d_report_id d) (d_data d) (d_size d)
                (d_jiffies d)) as [[ret p1] |] eqn:Hev; [| discriminate Hrun].
    destruct (octo_raw_event_inv _ _ _ _ _ _ _ _ Hwf Hev)
      as [_ [[Hne ->] | (Hid & Hlen & ->)]].
    + specialize (IH priv Hwf Hrun). cbn [last_status].
      destruct (last_status rest); [exact IH |].
      destruct (Z.eqb_spec (d_report_id d) OCTO_STATUS_REPORT_ID);
        [contradiction | exact IH].
    + specialize (IH _ (published_lengths cfg (d_data d) (d_jiffies d)) Hrun).
      cbn [last_status].
      destruct (last_status rest); [exact IH |].
      rewrite Hid, Z.eqb_refl. split; [exact Hlen | exact IH].
Qed.

Lemma octo_raw_events_last_status_witness :
  array_lengths_ok probed_at_600 ∧
  octo_raw_events cfg64 probed_at_600 sample_deliveries
  = Some (published cfg64 high_voltage_report 2000) ∧
  last_status sample_deliveries
  = Some (Delivery OCTO_STATUS_REPORT_ID high_voltage_report 226 2000) ∧
  OCTO_MIN_REPORT_LEN <= Z.of_nat (length high_voltage_report) ∧
  published cfg64 high_voltage_report 2000 = published cfg64 high_voltage_report 2000.
Proof.
  assert (Hwf : array_lengths_ok probed_at_600) by (repeat split).
  assert (Hrun : octo_raw_events cfg64 probed_at_600 sample_deliveries
                 = Some (published cfg64 high_voltage_report 2000))
    by (vm_compute; reflexivity).
  split; [exact Hwf |]. split; [exact Hrun |]. split; [reflexivity |].
  exact (octo_raw_events_last_status cfg64 probed_at_600 sample_deliveries _ Hwf Hrun).
Defined.

(** X2.  On every reachable structure, what a successful query of an
    in-range channel returns is within the bound of that channel: never
    negative, at most 655350 for a temperature, 6553 for the flow, 65535
    for a fan speed, voltage or current, 655350000 for a power. *)
Theorem octo_read_value_bounds cfg priv jiffies type attr channel v :
  kconfig_ok cfg ->
  reachable cfg priv ->
  channel_in_range type channel = true ->
  octo_read cfg priv jiffies type attr channel = Ok v ->
  0 <= v <= channel_max type channel.
Proof.
  intros Hcfg Hr Hch Hread.
  pose proof (in_range_supported _ _ Hch) as Hsup.
  rewrite (octo_read_dispatch cfg) in Hread by exact Hsup.
  destruct (time_after _ _ _); [discriminate |].
  destruct (octo_read_value cfg Hcfg priv type channel (reachable_inv cfg Hcfg priv Hr) Hch)
    as (x & Hx & Hval).
  rewrite Hval in Hread. injection Hread as <-.
  exact (reachable_value cfg priv type channel x Hr Hch Hx).
Qed.

Lemma octo_read_value_bounds_witness :
  kconfig_ok cfg64 ∧
  reachable cfg64 (published cfg64 sample_report 1000) ∧
  channel_in_range hwmon_fan 0 = true ∧
  octo_read cfg64 (published cfg64 sample_report 1000) 1200 hwmon_fan 0 0 = Ok 5 ∧
  0 <= 5 <= channel_max hwmon_fan 0.
Proof.
  assert (Hread : octo_read cfg64 (published cfg64 sample_report 1000) 1200 hwmon_fan 0 0
                  = Ok 5) by (vm_compute; reflexivity).
  split; [exact cfg64_ok |]. split; [exact sample_published_reachable |].
  split; [reflexivity |]. split; [exact Hread |].
  exact (octo_read_value_bounds cfg64 _ 1200 hwmon_fan 0 0 5 cfg64_ok
           sample_published_reachable eq_refl Hread).
Defined.

(** ** Staleness over a whole period of the tick counter *)

Section FullPeriod.

Variable cfg : kconfig.
Hypothesis cfg_ok : kconfig_ok cfg.

Let w := BITS_PER_LONG cfg.

Lemma wrap_add_period z : wrap w (z + 2 ^ w) = wrap w z.
Proof.
  unfold wrap. replace (z + 2 ^ w) with (z + 1 * 2 ^ w) by lia.
  apply Z_mod_plus_full.
Qed.

(** The test of [octo_read] [d] ticks after the stamp, for any [d] within
    one period: stale from just after the interval until half a period
    after it, fresh otherwise. *)
Lemma stale_test_period t_pub d :
  0 <= d < 2 ^ w ->
  time_after cfg (to_ulong cfg (t_pub + d))
    (to_ulong cfg (to_ulong cfg t_pub + OCTO_STATUS_UPDATE_INTERVAL cfg))
  = (OCTO_STATUS_UPDATE_INTERVAL cfg <? d)
    && (d <=? OCTO_STATUS_UPDATE_INTERVAL cfg + 2 ^ (w - 1)).
Proof.
  intros Hd. pose proof (half_range_large cfg cfg_ok) as Hbig. fold w in Hbig.
  pose proof (interval_value cfg cfg_ok) as HI.
  destruct cfg_ok as (Hw & Hpos & Hsmall). fold w in Hw.
  change (2 ^ 31) with 2147483648 in Hsmall.
  pose proof (pow2_half w ltac:(lia)) as Hp.
  rewrite HI.
  unfold time_after, to_ulong, to_long. fold w.
  rewrite wrap_sub_wrap_r, wrap_sub_wrap_l.
  replace (wrap w t_pub + 2 * HZ cfg - (t_pub + d))
    with (wrap w t_pub + (2 * HZ cfg - (t_pub + d))) by lia.
  rewrite wrap_add_wrap_l.
  replace (t_pub + (2 * HZ cfg - (t_pub + d))) with (2 * HZ cfg - d) by lia.
  destruct (Z.leb_spec d (2 * HZ cfg + 2 ^ (w - 1))) as [Hlow | Hhigh].
  - rewrite swrap_wrap_diff by lia. rewrite andb_true_r.
    destruct (Z.ltb_spec (2 * HZ cfg - d) 0); destruct (Z.ltb_spec (2 * HZ cfg) d);
      lia || reflexivity.
  - rewrite <- wrap_add_period.
    rewrite swrap_wrap_diff by lia. rewrite andb_false_r.
    destruct (Z.ltb_spec (2 * HZ cfg - d + 2 ^ w) 0); lia || reflexivity.
Qed.

End FullPeriod.

(** X3.  Staleness over one full period of the tick counter.  For a
    reachable structure stamped at tick [t_pub] and an in-range channel,
    a query [d] ticks later ([0 <= d < 2 ^ BITS_PER_LONG]) succeeds with
    the stored value when [d <= 2 * HZ], fails with [-ENODATA] while
    [2 * HZ < d <= 2 * HZ + 2 ^ (BITS_PER_LONG - 1)], and succeeds again
    with the same old value once more than half a period plus the
    interval has passed. *)
Theorem octo_read_staleness_period cfg priv type attr channel t_pub d :
  kconfig_ok cfg ->
  reachable cfg priv ->
  channel_in_range type channel = true ->
  updated priv = to_ulong cfg t_pub ->
  0 <= d < 2 ^ BITS_PER_LONG cfg ->
  ∃ v,
    value_table priv type !! Z.to_nat channel = Some v ∧
    octo_read cfg priv (t_pub + d) type attr channel =
    if (d <=? OCTO_STATUS_UPDATE_INTERVAL cfg)
       || (OCTO_STATUS_UPDATE_INTERVAL cfg + 2 ^ (BITS_PER_LONG cfg - 1) <? d)
    then Ok v else Err (- ENODATA).
Proof.
  intros Hcfg Hr Hch Hupd Hd.
  destruct (octo_read_value cfg Hcfg priv type channel (reachable_inv cfg Hcfg priv Hr) Hch)
    as (v & Hv & Hval).
  exists v. split; [exact Hv |].
  rewrite (octo_read_dispatch cfg) by (eapply in_range_supported; eassumption).
  rewrite Hupd, (stale_test_period cfg Hcfg) by exact Hd.
  destruct (Z.ltb_spec (OCTO_STATUS_UPDATE_INTERVAL cfg) d);
    destruct (Z.leb_spec d (OCTO_STATUS_UPDATE_INTERVAL cfg));
    destruct (Z.leb_spec d (OCTO_STATUS_UPDATE_INTERVAL cfg + 2 ^ (BITS_PER_LONG cfg - 1)));
    destruct (Z.ltb_spec (OCTO_STATUS_UPDATE_INTERVAL cfg + 2 ^ (BITS_PER_LONG cfg - 1)) d);
    cbn [andb orb]; try lia; reflexivity || exact Hval.
Qed.

Lemma octo_read_staleness_period_witness :
  kconfig_ok cfg32 ∧
  reachable cfg32 (published cfg32 sample_report 1000) ∧
  channel_in_range hwmon_temp 0 = true ∧
  updated (published cfg32 sample_report 1000) = to_ulong cfg32 1000 ∧
  0 <= 2147485649 < 2 ^ BITS_PER_LONG cfg32 ∧
  ∃ v,
    value_table (published cfg32 sample_report 1000) hwmon_temp !! Z.to_nat 0 = Some v ∧
    octo_read cfg32 (published cfg32 sample_report 1000) (1000 + 2147485649) hwmon_temp 0 0 =
    if (2147485649 <=? OCTO_STATUS_UPDATE_INTERVAL cfg32)
       || (OCTO_STATUS_UPDATE_INTERVAL cfg32 + 2 ^ (BITS_PER_LONG cfg32 - 1) <? 2147485649)
    then Ok v else Err (- ENODATA).
Proof.
  assert (Hr : reachable cfg32 (published cfg32 sample_report 1000)).
  { apply published_reachable. vm_compute. discriminate. }
  assert (Hd : 0 <= 2147485649 < 2 ^ BITS_PER_LONG cfg32).
  { split; [apply Z.leb_le | apply Z.ltb_lt]; reflexivity. }
  split; [exact cfg32_ok |]. split; [exact Hr |]. split; [reflexivity |].
  split; [reflexivity |]. split; [exact Hd |].
  exact (octo_read_staleness_period cfg32 _ hwmon_temp 0 0 1000 2147485649
           cfg32_ok Hr eq_refl eq_refl Hd).
Defined.

(** X4.  What a query returns after a status report.  If the handler
    completed on a report delivered at tick [jiffies], a query of an
    in-range channel [d] ticks later (less than half the range of the
    counter) returns the 16-bit big-endian field at the channel's offset,
    scaled for its category, while [d <= 2 * HZ], and [-ENODATA]
    afterwards. *)
Theorem octo_read_after_report cfg priv data size jiffies ret priv' type attr channel off d :
  kconfig_ok cfg ->
  array_lengths_ok priv ->
  octo_raw_event cfg priv OCTO_STATUS_REPORT_ID data size jiffies = Some (ret, priv') ->
  channel_in_range type channel = true ->
  offset_table type !! Z.to_nat channel = Some off ->
  0 <= d < 2 ^ (BITS_PER_LONG cfg - 1) ->
  octo_read cfg priv' (jiffies + d) type attr channel =
  if d <=? OCTO_STATUS_UPDATE_INTERVAL cfg
  then Ok (channel_scale type channel (raw16 data off))
  else Err (- ENODATA).
Proof.
  intros Hcfg Hwf Hev Hch Hoff Hd.
  destruct (octo_raw_event_inv _ _ _ _ _ _ _ _ Hwf Hev)
    as [_ [[Hne _] | (_ & Hlen & ->)]]; [contradiction |].
  destruct (octo_read_value cfg Hcfg _ type channel (published_inv cfg Hcfg data jiffies) Hch)
    as (v & Hv & Hval).
  rewrite (published_channel cfg data jiffies type channel off Hch Hoff) in Hv.
  injection Hv as <-.
  rewrite (octo_read_dispatch cfg) by (eapply in_range_supported; eassumption).
  cbn [published updated].
  rewrite (stale_test cfg Hcfg jiffies (jiffies + d)) by lia.
  replace (jiffies + d - jiffies) with d by lia.
  destruct (Z.ltb_spec (OCTO_STATUS_UPDATE_INTERVAL cfg) d);
    destruct (Z.leb_spec d (OCTO_STATUS_UPDATE_INTERVAL cfg)); try lia;
    reflexivity || exact Hval.
Qed.

Lemma octo_read_after_report_witness :
  kconfig_ok cfg64 ∧ array_lengths_ok probed_at_600 ∧
  octo_raw_event cfg64 probed_at_600 OCTO_STATUS_REPORT_ID sample_report 226 1000
  = Some (0, published cfg64 sample_report 1000) ∧
  channel_in_range hwmon_curr 1 = true ∧
  offset_table hwmon_curr !! Z.to_nat 1 = Some OCTO_FAN2_CURRENT ∧
  0 <= 300 < 2 ^ (BITS_PER_LONG cfg64 - 1) ∧
  octo_read cfg64 (published cfg64 sample_report 1000) (1000 + 300) hwmon_curr 0 1 =
  if 300 <=? OCTO_STATUS_UPDATE_INTERVAL cfg64
  then Ok (channel_scale hwmon_curr 1 (raw16 sample_report OCTO_FAN2_CURRENT))
  else Err (- ENODATA).
Proof.
  assert (Hwf : array_lengths_ok probed_at_600) by (repeat split).
  assert (Hev : octo_raw_event cfg64 probed_at_600 OCTO_STATUS_REPORT_ID sample_report
                  226 1000 = Some (0, published cfg64 sample_report 1000))
    by (vm_compute; reflexivity).
  assert (Hd : 0 <= 300 < 2 ^ (BITS_PER_LONG cfg64 - 1)).
  { split; [apply Z.leb_le | apply Z.ltb_lt]; reflexivity. }
  split; [exact cfg64_ok |]. split; [exact Hwf |]. split; [exact Hev |].
  split; [reflexivity |]. split; [reflexivity |]. split; [exact Hd |].
  exact (octo_read_after_report cfg64 probed_at_600 sample_report 226 1000 0 _
           hwmon_curr 0 1 OCTO_FAN2_CURRENT 300 cfg64_ok Hwf Hev eq_refl eq_refl Hd).
Defined.

(** X5.  The hwmon core only queries channels the capability table
    registers.  For each of them, on every reachable structure, the label
    query succeeds and the value query either succeeds or reports
    [-ENODATA]: neither runs outside its array, neither answers
    [-EOPNOTSUPP]. *)
Theorem advertised_queries_defined cfg priv jiffies type attr channel :
  kconfig_ok cfg ->
  reachable cfg priv ->
  advertised type channel ->
  (∃ label, octo_read_string priv type attr channel = Ok label) ∧
  (octo_read cfg priv jiffies type attr channel = Err (- ENODATA) ∨
   ∃ v, octo_read cfg priv jiffies type attr channel = Ok v).
Proof.
  intros Hcfg Hr Hadv. apply advertised_iff_in_range in Hadv.
  pose proof (in_range_supported _ _ Hadv) as Hsup.
  split.
  - rewrite octo_read_string_dispatch by exact Hsup.
    destruct (array_get_in_range (label_table type) (length (label_table type))
                channel eq_refl) as (label & _ & Hget).
    { rewrite label_table_length by exact Hsup.
      apply channel_in_range_spec. exact Hadv. }
    exists label. exact Hget.
  - rewrite (octo_read_dispatch cfg) by exact Hsup.
    destruct (time_after _ _ _); [left; reflexivity | right].
    destruct (octo_read_value cfg Hcfg priv type channel
                (reachable_inv cfg Hcfg priv Hr) Hadv) as (v & _ & Hval).
    exists v. exact Hval.
Qed.

Lemma advertised_queries_defined_witness :
  kconfig_ok cfg64 ∧ reachable cfg64 probed_at_600 ∧ advertised hwmon_in 8 ∧
  (∃ label, octo_read_string probed_at_600 hwmon_in 0 8 = Ok label) ∧
  (octo_read cfg64 probed_at_600 700 hwmon_in 0 8 = Err (- ENODATA) ∨
   ∃ v, octo_read cfg64 probed_at_600 700 hwmon_in 0 8 = Ok v).
Proof.
  assert (Hadv : advertised hwmon_in 8).
  { apply advertised_iff_in_range. reflexivity. }
  split; [exact cfg64_ok |]. split; [exact probed_at_600_reachable |].
  split; [exact Hadv |].
  exact (advertised_queries_defined cfg64 probed_at_600 700 hwmon_in 0 8
           cfg64_ok probed_at_600_reachable Hadv).
Defined.

(** ** The bytes the handler looks at *)

Section Layout.

Lemma byte_at_ext data1 data2 i :
  data1 !! Z.to_nat i = data2 !! Z.to_nat i -> byte_at data1 i = byte_at data2 i.
Proof. intros H. unfold byte_at. rewrite !nth_lookup, H. reflexivity. Qed.

Lemma layout_byte_nonneg i : layout_byte i = true -> 0 <= i.
Proof.
  unfold layout_byte. rewrite existsb_exists. intros ([off width] & Hin & Hb).
  apply andb_true_iff in Hb as [Hlo _]. apply Z.leb_le in Hlo. cbn in Hlo.
  assert (Hall : Forall (λ f, 0 <= fst f) layout) by (repeat constructor; discriminate).
  rewrite Forall_forall in Hall. apply list_elem_of_In in Hin.
  specialize (Hall _ Hin). cbn in Hall. lia.
Qed.

Variables data1 data2 : list byte.
Hypothesis agree : ∀ i, layout_byte i = true -> data1 !! Z.to_nat i = data2 !! Z.to_nat i.

Lemma raw16_agree off :
  layout_byte off = true -> layout_byte (off + 1) = true ->
  raw16 data1 off = raw16 data2 off.
Proof.
  intros H0 H1. unfold raw16.
  rewrite (byte_at_ext data1 data2 off), (byte_at_ext data1 data2 (off + 1));
    auto.
Qed.

Lemma raw32_agree off :
  layout_byte off = true -> layout_byte (off + 1) = true ->
  layout_byte (off + 2) = true -> layout_byte (off + 3) = true ->
  raw32 data1 off = raw32 data2 off.
Proof.
  intros H0 H1 H2 H3. unfold raw32.
  rewrite (byte_at_ext data1 data2 off), (byte_at_ext data1 data2 (off + 1)),
    (byte_at_ext data1 data2 (off + 2)), (byte_at_ext data1 data2 (off + 3));
    auto.
Qed.

Lemma published_agree cfg jiffies :
  published cfg data1 jiffies = published cfg data2 jiffies.
Proof.
  unfold published, temp_offsets, fan_speed_offsets, power_offsets,
    voltage_offsets, current_offsets.
  cbn [fmap list_fmap].
  rewrite (raw32_agree OCTO_POWER_CYCLES) by reflexivity.
  repeat match goal with
         | |- context [raw16 data1 ?o] =>
             rewrite (raw16_agree o) by reflexivity
         end.
  reflexivity.
Qed.

End Layout.

(** X6.  The handler looks at the bytes of its 42 fields and at nothing
    else.  Two status reports whose buffers hold the whole layout and
    agree on the field bytes leave the same structure, whatever the other
    bytes are: the first three bytes of the buffer, the gaps between
    fields and everything from byte 226 on. *)
Theorem octo_raw_event_reads_layout_only
    cfg priv1 priv2 data1 data2 size1 size2 jiffies :
  array_lengths_ok priv1 -> array_lengths_ok priv2 ->
  OCTO_MIN_REPORT_LEN <= Z.of_nat (length data1) ->
  OCTO_MIN_REPORT_LEN <= Z.of_nat (length data2) ->
  (∀ i, layout_byte i = true -> data1 !! Z.to_nat i = data2 !! Z.to_nat i) ->
  octo_raw_event cfg priv1 OCTO_STATUS_REPORT_ID data1 size1 jiffies
  = octo_raw_event cfg priv2 OCTO_STATUS_REPORT_ID data2 size2 jiffies.
Proof.
  intros Hwf1 Hwf2 Hlen1 Hlen2 Hagree.
  rewrite !octo_raw_event_published by assumption.
  rewrite (published_agree data1 data2 Hagree). reflexivity.
Qed.

Lemma octo_raw_event_reads_layout_only_witness :
  array_lengths_ok octo_data_zero ∧ array_lengths_ok probed_at_600 ∧
  OCTO_MIN_REPORT_LEN <= Z.of_nat (length sample_report) ∧
  OCTO_MIN_REPORT_LEN <= Z.of_nat (length (<[0%nat := xff]> transfer_buffer)) ∧
  (∀ i, layout_byte i = true ->
        sample_report !! Z.to_nat i = <[0%nat := xff]> transfer_buffer !! Z.to_nat i) ∧
  octo_raw_event cfg64 octo_data_zero OCTO_STATUS_REPORT_ID sample_report 226 1000
  = octo_raw_event cfg64 probed_at_600 OCTO_STATUS_REPORT_ID
      (<[0%nat := xff]> transfer_buffer) 256 1000.
Proof.
  assert (Hwf1 : array_lengths_ok octo_data_zero) by (repeat split).
  assert (Hwf2 : array_lengths_ok probed_at_600) by (repeat split).
  assert (Hlen1 : OCTO_MIN_REPORT_LEN <= Z.of_nat (length sample_report))
    by (vm_compute; discriminate).
  assert (Hlen2 : OCTO_MIN_REPORT_LEN
                  <= Z.of_nat (length (<[0%nat := xff]> transfer_buffer)))
    by (vm_compute; discriminate).
  assert (Hagree : ∀ i, layout_byte i = true ->
            sample_report !! Z.to_nat i = <[0%nat := xff]> transfer_buffer !! Z.to_nat i).
  { intros i Hi. pose proof (layout_byte_nonneg i Hi) as H0.
    destruct (Z.eq_dec i 0) as [-> | Hne]; [discriminate Hi |].
    rewrite list_lookup_insert_ne by lia.
    unfold transfer_buffer.
    destruct (Z_lt_le_dec i 226) as [Hlt | Hge].
    - rewrite lookup_app_l; [reflexivity |].
      change (length sample_report) with 226%nat. lia.
    - exfalso. unfold layout_byte in Hi. apply existsb_exists in Hi.
      destruct Hi as ([off width] & Hin & Hb).
      apply andb_true_iff in Hb as [_ Hhi]. apply Z.ltb_lt in Hhi. cbn in Hhi.
      assert (Hall : Forall (λ f, fst f + snd f <= 226) layout)
        by (repeat constructor; discriminate).
      rewrite Forall_forall in Hall. apply list_elem_of_In in Hin.
      specialize (Hall _ Hin). cbn in Hall. lia. }
  split; [exact Hwf1 |]. split; [exact Hwf2 |]. split; [exact Hlen1 |].
  split; [exact Hlen2 |]. split; [exact Hagree |].
  exact (octo_raw_event_reads_layout_only cfg64 _ _ _ _ 226 256 1000
           Hwf1 Hwf2 Hlen1 Hlen2 Hagree).
Defined.

(** ** Fields do not overlap *)

Section Disjoint.

Lemma registry_apart : Forall (λ p, Forall (apart p) registry) registry.
Proof. apply (bool_decide_unpack _). vm_compute. exact I. Qed.

Lemma registry_after_identity : Forall (λ p, 61 <= snd p <= 224) registry.
Proof. apply (bool_decide_unpack _). vm_compute. exact I. Qed.

Lemma registry_elem type channel off :
  channel_in_range type channel = true ->
  offset_table type !! Z.to_nat channel = Some off ->
  (type, channel, off) ∈ registry.
Proof.
  intros Hch Hoff. pose proof (in_range_supported _ _ Hch) as Hsup.
  apply channel_in_range_spec in Hch.
  unfold registry. apply list_elem_of_In, in_concat.
  exists (imap (λ i o, (type, Z.of_nat i, o)) (offset_table type)). split.
  - apply list_elem_of_In, list_elem_of_fmap.
    exists type. split; [reflexivity |].
    destruct type; try discriminate Hsup; apply list_elem_of_In; cbn; tauto.
  - apply list_elem_of_In, elem_of_lookup_imap.
    exists (Z.to_nat channel), off. split; [| exact Hoff].
    rewrite Z2Nat.id by lia. reflexivity.
Qed.

Lemma channel_offsets_apart type channel off type' channel' off' :
  channel_in_range type channel = true ->
  offset_table type !! Z.to_nat channel = Some off ->
  channel_in_range type' channel' = true ->
  offset_table type' !! Z.to_nat channel' = Some off' ->
  (type', channel') ≠ (type, channel) ->
  off + 2 <= off' ∨ off' + 2 <= off.
Proof.
  intros Hch Hoff Hch' Hoff' Hne.
  pose proof (registry_elem _ _ _ Hch Hoff) as Hp.
  pose proof (registry_elem _ _ _ Hch' Hoff') as Hq.
  pose proof registry_apart as Hall. rewrite Forall_forall in Hall.
  specialize (Hall _ Hp). rewrite Forall_forall in Hall. specialize (Hall _ Hq).
  destruct Hall as [Heq | Hfar]; [| exact Hfar].
  injection Heq as -> -> ->. contradiction.
Qed.

Lemma channel_offset_bounds type channel off :
  channel_in_range type channel = true ->
  offset_table type !! Z.to_nat channel = Some off ->
  61 <= off <= 224.
Proof.
  intros Hch Hoff. pose proof (registry_elem _ _ _ Hch Hoff) as Hp.
  pose proof registry_after_identity as Hall. rewrite Forall_forall in Hall.
  exact (Hall _ Hp).
Qed.

End Disjoint.

(** ** Writing one field of a buffer *)

Section Poke.

Lemma u8_of_N k : 0 <= k < 256 -> u8 (default x00 (Byte.of_N (Z.to_N k))) = k.
Proof.
  intros Hk. unfold u8.
  destruct (Byte.of_N (Z.to_N k)) as [b |] eqn:E.
  - apply Byte.to_of_N in E. change (Z.of_N (Byte.to_N b) = k). rewrite E. lia.
  - apply Byte.of_N_None_iff in E. lia.
Qed.

Lemma length_poke16 off v data : length (poke16 off v data) = length data.
Proof. unfold poke16. rewrite !length_insert. reflexivity. Qed.

Variables (off : nat) (v : Z) (data : list byte).
Hypothesis in_buffer : (S off < length data)%nat.
Hypothesis v_u16 : 0 <= v <= 65535.

Lemma byte_at_poke16_hi : byte_at (poke16 off v data) (Z.of_nat off) = v / 256.
Proof.
  unfold byte_at, poke16. rewrite Nat2Z.id.
  rewrite (nth_lookup_Some _ _ x00 (default x00 (Byte.of_N (Z.to_N (v / 256))))).
  - apply u8_of_N. split; [apply Z.div_pos; lia |].
    apply Z.div_lt_upper_bound; lia.
  - apply list_lookup_insert_eq. rewrite length_insert. lia.
Qed.

Lemma byte_at_poke16_lo : byte_at (poke16 off v data) (Z.of_nat off + 1) = v mod 256.
Proof.
  unfold byte_at, poke16. replace (Z.to_nat (Z.of_nat off + 1)) with (S off) by lia.
  rewrite (nth_lookup_Some _ _ x00 (default x00 (Byte.of_N (Z.to_N (v mod 256))))).
  - apply u8_of_N. apply Z.mod_pos_bound. lia.
  - rewrite list_lookup_insert_ne by lia. apply list_lookup_insert_eq. lia.
Qed.

Lemma byte_at_poke16_other i :
  0 <= i -> i ≠ Z.of_nat off -> i ≠ Z.of_nat off + 1 ->
  byte_at (poke16 off v data) i = byte_at data i.
Proof.
  intros H0 H1 H2. apply byte_at_ext. unfold poke16.
  rewrite !list_lookup_insert_ne by lia. reflexivity.
Qed.

(** Reading the field back gives the value written. *)
Lemma raw16_poke16_same : raw16 (poke16 off v data) (Z.of_nat off) = v.
Proof.
  unfold raw16. rewrite byte_at_poke16_hi, byte_at_poke16_lo.
  pose proof (Z.div_mod v 256 ltac:(lia)). lia.
Qed.

(** Fields that do not touch the written bytes keep their value. *)
Lemma raw16_poke16_apart o :
  0 <= o -> o + 2 <= Z.of_nat off ∨ Z.of_nat off + 2 <= o ->
  raw16 (poke16 off v data) o = raw16 data o.
Proof.
  intros H0 Hfar. unfold raw16.
  rewrite !byte_at_poke16_other by lia. reflexivity.
Qed.

Lemma raw32_poke16_apart o :
  0 <= o -> o + 4 <= Z.of_nat off ∨ Z.of_nat off + 2 <= o ->
  raw32 (poke16 off v data) o = raw32 data o.
Proof.
  intros H0 Hfar. unfold raw32.
  rewrite !byte_at_poke16_other by lia. reflexivity.
Qed.

End Poke.

(** X7.  Writing a channel's field and decoding.  Storing a 16-bit value
    [v] big-endian at the offset of one channel of a buffer and
    delivering the buffer as a status report gives that channel the
    scaled [v], and gives every other channel, the identity fields and
    the timestamp what the unmodified buffer gives them: no two channels
    share a byte. *)
Theorem poke16_changes_one_channel
    cfg priv data size jiffies type channel off v :
  array_lengths_ok priv ->
  OCTO_MIN_REPORT_LEN <= Z.of_nat (length data) ->
  channel_in_range type channel = true ->
  offset_table type !! Z.to_nat channel = Some off ->
  0 <= v <= 65535 ->
  ∃ before after,
    octo_raw_event cfg priv OCTO_STATUS_REPORT_ID data size jiffies = Some (0, before) ∧
    octo_raw_event cfg priv OCTO_STATUS_REPORT_ID (poke16 (Z.to_nat off) v data)
      size jiffies = Some (0, after) ∧
    value_table after type !! Z.to_nat channel = Some (channel_scale type channel v) ∧
    (∀ type' channel',
       channel_in_range type' channel' = true ->
       (type', channel') ≠ (type, channel) ->
       value_table after type' !! Z.to_nat channel'
       = value_table before type' !! Z.to_nat channel') ∧
    identity after = identity before ∧
    updated after = updated before.
Proof.
  intros Hwf Hlen Hch Hoff Hv.
  pose proof (channel_offset_bounds _ _ _ Hch Hoff) as Hb.
  assert (Hin : (S (Z.to_nat off) < length data)%nat)
    by (unfold OCTO_MIN_REPORT_LEN in Hlen; lia).
  exists (published cfg data jiffies),
         (published cfg (poke16 (Z.to_nat off) v data) jiffies).
  split; [apply octo_raw_event_published; assumption |].
  split.
  { apply octo_raw_event_published; [assumption |]. rewrite length_poke16. exact Hlen. }
  split; [| split; [| split]].
  - rewrite (published_channel _ _ _ _ _ _ Hch Hoff).
    replace off with (Z.of_nat (Z.to_nat off)) at 2 by lia.
    rewrite raw16_poke16_same by assumption. reflexivity.
  - intros type' channel' Hch' Hne.
    destruct (offset_table_in_range _ _ Hch') as [off' Hoff'].
    pose proof (channel_offset_bounds _ _ _ Hch' Hoff') as Hb'.
    pose proof (channel_offsets_apart _ _ _ _ _ _ Hch Hoff Hch' Hoff' Hne) as Hfar.
    rewrite !(published_channel _ _ _ _ _ _ Hch' Hoff').
    rewrite raw16_poke16_apart by lia. reflexivity.
  - rewrite !published_identity.
    rewrite !raw16_poke16_apart
      by (autounfold with octo_fields; lia).
    rewrite raw32_poke16_apart by (autounfold with octo_fields; lia).
    reflexivity.
  - reflexivity.
Qed.

Lemma poke16_changes_one_channel_witness :
  array_lengths_ok probed_at_600 ∧
  OCTO_MIN_REPORT_LEN <= Z.of_nat (length sample_report) ∧
  channel_in_range hwmon_power 7 = true ∧
  offset_table hwmon_power !! Z.to_nat 7 = Some OCTO_FAN8_POWER ∧
  0 <= 1234 <= 65535 ∧
  ∃ before after,
    octo_raw_event cfg64 probed_at_600 OCTO_STATUS_REPORT_ID sample_report 226 1000
    = Some (0, before) ∧
    octo_raw_event cfg64 probed_at_600 OCTO_STATUS_REPORT_ID
      (poke16 (Z.to_nat OCTO_FAN8_POWER) 1234 sample_report) 226 1000 = Some (0, after) ∧
    value_table after hwmon_power !! Z.to_nat 7
    = Some (channel_scale hwmon_power 7 1234) ∧
    (∀ type' channel',
       channel_in_range type' channel' = true ->
       (type', channel') ≠ (hwmon_power, 7) ->
       value_table after type' !! Z.to_nat channel'
       = value_table before type' !! Z.to_nat channel') ∧
    identity after = identity before ∧
    updated after = updated before.
Proof.
  assert (Hwf : array_lengths_ok probed_at_600) by (repeat split).
  assert (Hlen : OCTO_MIN_REPORT_LEN <= Z.of_nat (length sample_report))
    by (vm_compute; discriminate).
  assert (Hv : 0 <= 1234 <= 65535) by (split; discriminate).
  split; [exact Hwf |]. split; [exact Hlen |]. split; [reflexivity |].
  split; [reflexivity |]. split; [exact Hv |].
  exact (poke16_changes_one_channel cfg64 probed_at_600 sample_report 226 1000
           hwmon_power 7 OCTO_FAN8_POWER 1234 Hwf Hlen eq_refl eq_refl Hv).
Defined.

(** X8.  The 42 fields of the report occupy pairwise disjoint byte
    ranges, all of them between byte 3 and byte 225, and the last one
    ends at byte 226, the length the handler needs. *)
Theorem layout_fields_disjoint :
  length layout = 42%nat ∧
  NoDup layout ∧
  Forall (λ f, 3 <= fst f ∧ fst f + snd f <= OCTO_MIN_REPORT_LEN) layout ∧
  Exists (λ f, fst f + snd f = OCTO_MIN_REPORT_LEN) layout ∧
  Forall (λ f, Forall (λ g, f = g ∨ fst f + snd f <= fst g ∨ fst g + snd g <= fst f)
                 layout) layout.
Proof.
  split; [reflexivity |].
  repeat split; apply (bool_decide_unpack _); vm_compute; exact I.
Qed.

(** ** Which channels share a label *)

Section Labels.

Lemma labelled_close : Forall (λ p, Forall (same_label_close p) labelled) labelled.
Proof. apply (bool_decide_unpack _). vm_compute. exact I. Qed.

Lemma labelled_elem priv type attr channel label :
  octo_read_string priv type attr channel = Ok label ->
  (type, channel, label) ∈ labelled.
Proof.
  intros Hread.
  assert (Hsup : supported type = true)
    by (destruct type; try discriminate Hread; reflexivity).
  rewrite octo_read_string_dispatch in Hread by exact Hsup.
  destruct (array_get_Ok_inv _ _ _ Hread) as [H0 Hl].
  unfold labelled. apply list_elem_of_In, in_concat.
  exists (imap (λ i l, (type, Z.of_nat i, l)) (label_table type)). split.
  - apply list_elem_of_In, list_elem_of_fmap.
    exists type. split; [reflexivity |].
    destruct type; try discriminate Hsup; apply list_elem_of_In; cbn; tauto.
  - apply list_elem_of_In, elem_of_lookup_imap.
    exists (Z.to_nat channel), label. split; [| exact Hl].
    rewrite Z2Nat.id by lia. reflexivity.
Qed.

End Labels.

(** X9.  A label names its category, and names its channel except in the
    current category: if two label queries succeed with the same string,
    they are for the same category, and for the same channel or for two
    current channels whose indices differ by 4. *)
Theorem label_collisions priv1 priv2 type1 type2 attr1 attr2 channel1 channel2 label :
  octo_read_string priv1 type1 attr1 channel1 = Ok label ->
  octo_read_string priv2 type2 attr2 channel2 = Ok label ->
  type1 = type2 ∧
  (channel1 = channel2 ∨
   (type1 = hwmon_curr ∧ (channel2 = channel1 + 4 ∨ channel1 = channel2 + 4))).
Proof.
  intros H1 H2.
  pose proof (labelled_elem _ _ _ _ _ H1) as Hp.
  pose proof (labelled_elem _ _ _ _ _ H2) as Hq.
  pose proof labelled_close as Hall. rewrite Forall_forall in Hall.
  specialize (Hall _ Hp). rewrite Forall_forall in Hall.
  exact (Hall _ Hq eq_refl).
Qed.

Lemma label_collisions_witness :
  octo_read_string probed_at_600 hwmon_curr 0 2 = Ok "Fan3 current" ∧
  octo_read_string probed_at_600 hwmon_curr 0 6 = Ok "Fan3 current" ∧
  hwmon_curr = hwmon_curr ∧
  (2 = 6 ∨ (hwmon_curr = hwmon_curr ∧ (6 = 2 + 4 ∨ 2 = 6 + 4))).
Proof.
  split; [reflexivity |]. split; [reflexivity |].
  exact (label_collisions probed_at_600 probed_at_600 hwmon_curr hwmon_curr 0 0 2 6
           "Fan3 current" eq_refl eq_refl).
Defined.

(** ** The text of the debugfs files *)

Section DebugfsText.

Lemma fmt_u_nonempty n : fmt_u n ≠ EmptyString.
Proof.
  unfold fmt_u. destruct (Z.to_N n) as [| p]; [discriminate |].
  cbn [N.to_uint]. pose proof (DecimalPos.Unsigned.to_uint_nonnil p) as Hnn.
  destruct (Pos.to_uint p); [contradiction | discriminate ..].
Qed.

(** Reading a printed number gives the number. *)
Lemma read_u_fmt_u n : 0 <= n -> read_u (fmt_u n) = Some n.
Proof.
  intros Hn. unfold read_u, fmt_u.
  assert (Hround : NilZero.uint_of_string (NilZero.string_of_uint (N.to_uint (Z.to_N n)))
                   = Some (N.to_uint (Z.to_N n))).
  { destruct (Z.to_N n) as [| p]; [reflexivity |].
    cbn [N.to_uint]. pose proof (DecimalPos.Unsigned.to_uint_nonnil p) as Hnn.
    destruct (Pos.to_uint p) eqn:E; [contradiction | ..];
      apply (NilEmpty.usu (_ u)). }
  rewrite Hround, DecimalN.Unsigned.of_to. f_equal. lia.
Qed.

Lemma read_u_leading_zero s :
  s ≠ EmptyString -> read_u (String "0" s) = read_u s.
Proof.
  intros Hs. unfold read_u, NilZero.uint_of_string.
  destruct s as [| c s]; [contradiction |].
  change (NilEmpty.uint_of_string (String "0" (String c s)))
    with (match NilEmpty.uint_of_string (String c s) with
          | Some d => Some (Decimal.D0 d)
          | None => None
          end).
  destruct (NilEmpty.uint_of_string (String c s)); reflexivity.
Qed.

Lemma zero_pad_nonempty k s : s ≠ EmptyString -> zero_pad k s ≠ EmptyString.
Proof. destruct k; [auto | discriminate]. Qed.

Lemma read_u_zero_pad k s : s ≠ EmptyString -> read_u (zero_pad k s) = read_u s.
Proof.
  intros Hs. induction k as [| k IH]; [reflexivity |].
  cbn [zero_pad]. rewrite read_u_leading_zero by (apply zero_pad_nonempty; exact Hs).
  exact IH.
Qed.

Lemma read_u_fmt_05u n : 0 <= n -> read_u (fmt_05u n) = Some n.
Proof.
  intros Hn. unfold fmt_05u. cbv zeta.
  rewrite read_u_zero_pad by apply fmt_u_nonempty. apply read_u_fmt_u. exact Hn.
Qed.

Lemma all_from_spec fuel :
  ∀ k f, all_from fuel k f = true -> ∀ i, k <= i < k + Z.of_nat fuel -> f i = true.
Proof.
  induction fuel as [| fuel IH]; intros k f H i Hi; [lia |].
  cbn [all_from] in H. apply andb_true_iff in H as [Hk Hrest].
  destruct (Z.eq_dec i k) as [-> | Hne]; [exact Hk |].
  apply (IH (k + 1) f Hrest). lia.
Qed.

(** A 16-bit number fills the five columns exactly. *)
Lemma fmt_05u_length n : 0 <= n <= 65535 -> String.length (fmt_05u n) = 5%nat.
Proof.
  intros Hn.
  assert (Hall : all_from (Z.to_nat 65536) 0
                   (λ k, (String.length (fmt_05u k) =? 5)%nat) = true)
    by (vm_compute; reflexivity).
  apply Nat.eqb_eq.
  apply (all_from_spec _ _ _ Hall n). lia.
Qed.

Lemma reachable_identity_range cfg priv :
  reachable cfg priv ->
  ∃ a b, serial_number priv = [a; b] ∧ 0 <= a <= 65535 ∧ 0 <= b <= 65535 ∧
         0 <= firmware_version priv <= 65535 ∧ 0 <= power_cycles priv < 2 ^ 32.
Proof.
  intros Hr.
  destruct (reachable_shape_1 cfg priv Hr) as [[j ->] | (data & j & _ & ->)].
  - exists 0, 0. cbn. repeat split; lia.
  - pose proof (published_identity cfg data j) as Hid. unfold identity in Hid.
    pose proof (f_equal (λ x, fst (fst x)) Hid) as Hs.
    pose proof (f_equal (λ x, snd (fst x)) Hid) as Hf.
    pose proof (f_equal snd Hid) as Hp. cbn [fst snd] in Hs, Hf, Hp.
    exists (raw16 data OCTO_SERIAL_FIRST_PART), (raw16 data OCTO_SERIAL_SECOND_PART).
    rewrite Hs, Hf, Hp.
    split; [reflexivity |].
    split; [apply raw16_range |]. split; [apply raw16_range |].
    split; [apply raw16_range | apply raw32_range].
Qed.

End DebugfsText.

(** X10.  The debugfs text can be read back.  On every reachable
    structure the serial-number file is two groups of exactly five
    decimal digits separated by ["-"], each reading back as its part of
    the serial number; the firmware and power-cycle files read back as
    their fields. *)
Theorem debugfs_text_reads_back cfg priv :
  reachable cfg priv ->
  ∃ a b,
    serial_number priv = [a; b] ∧
    serial_number_show priv = Ok (fmt_05u a +:+ "-" +:+ fmt_05u b +:+ newline) ∧
    String.length (fmt_05u a) = 5%nat ∧ String.length (fmt_05u b) = 5%nat ∧
    read_u (fmt_05u a) = Some a ∧ read_u (fmt_05u b) = Some b ∧
    firmware_version_show priv = Ok (fmt_u (firmware_version priv) +:+ newline) ∧
    read_u (fmt_u (firmware_version priv)) = Some (firmware_version priv) ∧
    power_cycles_show priv = Ok (fmt_u (power_cycles priv) +:+ newline) ∧
    read_u (fmt_u (power_cycles priv)) = Some (power_cycles priv).
Proof.
  intros Hr.
  destruct (reachable_identity_range cfg priv Hr) as (a & b & Hs & Ha & Hb & Hf & Hp).
  exists a, b. split; [exact Hs |].
  destruct (show_of_identity priv a b (firmware_version priv) (power_cycles priv))
    as (Hss & Hsf & Hsp).
  { unfold identity. rewrite Hs. reflexivity. }
  split; [exact Hss |].
  split; [apply fmt_05u_length; exact Ha |]. split; [apply fmt_05u_length; exact Hb |].
  split; [apply read_u_fmt_05u; lia |]. split; [apply read_u_fmt_05u; lia |].
  split; [exact Hsf |]. split; [apply read_u_fmt_u; lia |].
  split; [exact Hsp |]. apply read_u_fmt_u; lia.
Qed.

Lemma debugfs_text_reads_back_witness :
  reachable cfg64 (published cfg64 sample_report 1000) ∧
  serial_number_show (published cfg64 sample_report 1000)
  = Ok ("12345-00678" +:+ newline) ∧
  read_u "00678" = Some 678.
Proof.
  split; [exact sample_published_reachable |].
  destruct (debugfs_text_reads_back cfg64 _ sample_published_reachable)
    as (a & b & Hs & Hss & _ & _ & _ & Hrb & _).
  injection Hs as <- <-.
  split; [exact Hss | exact Hrb].
Defined.

(** ** The debugfs directory *)

Section DebugfsDir.

Lemma truncate_length n s : (String.length (truncate n s) <= n)%nat.
Proof.
  revert s. induction n as [| n IH]; intros s; [cbn; lia |].
  destruct s as [| c s]; cbn; [lia |]. specialize (IH s). lia.
Qed.

Lemma truncate_short n s : (String.length s <= n)%nat -> truncate n s = s.
Proof.
  revert s. induction n as [| n IH]; intros s Hs.
  - destruct s; [reflexivity | cbn in Hs; lia].
  - destruct s as [| c s]; [reflexivity |]. cbn in Hs |- *. rewrite IH by lia.
    reflexivity.
Qed.

(** The 32-byte buffer leaves room for 13 characters of the device
    name after the driver name and the dash. *)
Lemma debugfs_dir_name dev_name :
  scnprintf_s_s 32 DRIVER_NAME dev_name
  = DRIVER_NAME +:+ "-" +:+ truncate 13 dev_name.
Proof. reflexivity. Qed.

End DebugfsDir.

(** X11.  [octo_debugfs_init] names its directory after the driver and
    the first 13 characters of the device name only, because the name is
    built in a 32-byte buffer: the name never exceeds 31 characters, a
    device name of at most 13 characters is kept whole, and two devices
    whose names agree on their first 13 characters get the same
    directory name and the same debugfs calls. *)
Theorem debugfs_dir_name_collision dev_name1 dev_name2 :
  truncate 13 dev_name1 = truncate 13 dev_name2 ->
  scnprintf_s_s 32 DRIVER_NAME dev_name1 = scnprintf_s_s 32 DRIVER_NAME dev_name2 ∧
  octo_debugfs_init true dev_name1 = octo_debugfs_init true dev_name2 ∧
  (String.length (scnprintf_s_s 32 DRIVER_NAME dev_name1) <= 31)%nat ∧
  ((String.length dev_name1 <= 13)%nat ->
   scnprintf_s_s 32 DRIVER_NAME dev_name1 = DRIVER_NAME +:+ "-" +:+ dev_name1).
Proof.
  intros Hsame.
  assert (Hname : scnprintf_s_s 32 DRIVER_NAME dev_name1
                  = scnprintf_s_s 32 DRIVER_NAME dev_name2)
    by (rewrite !debugfs_dir_name, Hsame; reflexivity).
  split; [exact Hname |].
  split; [unfold octo_debugfs_init; rewrite Hname; reflexivity |].
  split; [apply truncate_length |].
  intros Hshort. rewrite debugfs_dir_name, truncate_short by exact Hshort.
  reflexivity.
Qed.

Lemma debugfs_dir_name_collision_witness :
  first_octo_name ≠ second_octo_name ∧
  truncate 13 first_octo_name = truncate 13 second_octo_name ∧
  scnprintf_s_s 32 DRIVER_NAME first_octo_name = "aquacomputer-octo-0003:0C70:F01" ∧
  scnprintf_s_s 32 DRIVER_NAME second_octo_name = "aquacomputer-octo-0003:0C70:F01".
Proof.
  assert (Hsame : truncate 13 first_octo_name = truncate 13 second_octo_name)
    by reflexivity.
  split; [discriminate |]. split; [exact Hsame |].
  destruct (debugfs_dir_name_collision first_octo_name second_octo_name Hsame)
    as (Hname & _).
  split; [reflexivity |]. rewrite <- Hname. reflexivity.
Defined.

(** ** Probe and remove *)

Section ProbeRemove.


End ProbeRemove.



